(** * Session and token lifecycle of the temsaas backend

    A shallow embedding of [backend/app/utils/security.py], of the session
    routes of [backend/app/routers/auth.py] and of the sweeper loop body of
    [backend/app/main.py], followed by the properties of the session and token
    lifecycle.

    Conventions of the embedding.
    - Python code that reads the clock, draws a UUID, talks to MongoDB or
      raises runs in the monad [M]: a state monad over [World] whose results
      are [Ok v] or [Raise e].  State changes made before a [raise] persist,
      as in Python.
    - [datetime.utcnow()] and [uuid.uuid4()] are oracles of the world: the
      n-th call returns [clock w n] resp. [uuid4 w n].  Every pymongo call
      consults [store_fault]: a faulty call raises [PyMongoError] and leaves
      the collection untouched.
    - Times are whole seconds ([Z]), the resolution of a JWT NumericDate:
      [timedelta(hours=1)] is 3600 and [timedelta(days=30)] is 2592000.
    - A JWT is modelled symbolically: [Signed alg key claims] is the compact
      serialisation of [claims] signed with [key] under [alg]; every other
      string is [Garbage].  [jwt_decode] follows PyJWT: structure and
      signature first, then the registered claims [iat], [nbf], [exp]
      against one reading of the clock. *)

From Stdlib Require Import ZArith List String Ascii Bool Lia.
Import ListNotations.
Open Scope string_scope.
Open Scope Z_scope.

(** ** Python values and dictionaries *)

Inductive Value : Type :=
| VNone
| VStr (s : string)
| VTime (t : Z).

Definition value_eqb (a b : Value) : bool :=
  match a, b with
  | VNone, VNone => true
  | VStr s, VStr t => String.eqb s t
  | VTime s, VTime t => Z.eqb s t
  | _, _ => false
  end.

(** Python truthiness, as used by [if invalidate_id:]. *)
Definition truthy (v : Value) : bool :=
  match v with
  | VNone => false
  | VStr s => negb (String.eqb s "")
  | VTime _ => true
  end.

Definition Dict : Type := list (string * Value).

(** [d.get(k)]: the value bound to [k], [None] when the key is missing. *)
Fixpoint dict_get (d : Dict) (k : string) : Value :=
  match d with
  | [] => VNone
  | (k', v) :: d' => if String.eqb k' k then v else dict_get d' k
  end.

(** [k in d]. *)
Fixpoint dict_has (d : Dict) (k : string) : bool :=
  match d with
  | [] => false
  | (k', _) :: d' => String.eqb k' k || dict_has d' k
  end.

(** ** Exceptions and results *)

Inductive exn : Type :=
| HTTPException (status_code : Z) (detail : string)
| ExpiredSignatureError
| ImmatureSignatureError
| InvalidSignatureError
| InvalidAlgorithmError
| DecodeError
| PyMongoError
| InvalidId
| TypeError
| AttributeError.

(** [isinstance(e, jwt.InvalidTokenError)]: the base class of every error
    [jwt.decode] raises, [ExpiredSignatureError] included. *)
Definition is_InvalidTokenError (e : exn) : bool :=
  match e with
  | ExpiredSignatureError | ImmatureSignatureError | InvalidSignatureError
  | InvalidAlgorithmError | DecodeError => true
  | _ => false
  end.

Inductive Result (A : Type) : Type :=
| Ok (v : A)
| Raise (e : exn).
Arguments Ok {A} v.
Arguments Raise {A} e.

(** ** Documents *)

(** [ObjectId]s are kept as their canonical 24-digit lower-case hex string. *)
Definition ObjectIdT : Type := string.

(** [client_info]: [{}] is [None]; a parsed user agent keeps its ["raw"]
    field (the families and versions come from the external [ua_parser]). *)
Definition ClientInfo : Type := option string.

Record Session : Type := mkSession {
  sess_invalidate_id : string;
  sess_user_id : ObjectIdT;
  sess_created_at : Z;
  sess_expires_at : Z;
  sess_last_used : Z;
  sess_is_active : bool;
  sess_ip_address : string;
  sess_client_info : ClientInfo }.

Record User : Type := mkUser {
  user__id : ObjectIdT;
  user_email : string }.

(** ** Tokens, requests and cookies *)

Inductive Token : Type :=
| Signed (alg key : string) (claims : Dict)
| Garbage (raw : string).

Record Request : Type := mkRequest {
  client_host : option string;          (* request.client, then .host *)
  header_user_agent : option string;    (* request.headers.get("user-agent") *)
  cookies : list (string * Token) }.

Fixpoint cookies_get (c : list (string * Token)) (k : string) : option Token :=
  match c with
  | [] => None
  | (k', v) :: c' => if String.eqb k' k then Some v else cookies_get c' k
  end.

Record Cookie : Type := mkCookie {
  cookie_key : string;
  cookie_value : Token;
  cookie_httponly : bool;
  cookie_secure : bool;
  cookie_samesite : string;
  cookie_max_age : Z }.

(** ** The world and the monad *)

Record World : Type := mkWorld {
  sessions : list Session;          (* db.sessions, in natural order *)
  users : list User;                (* db.users *)
  clock : nat -> Z;                 (* readings of datetime.utcnow() *)
  ticks : nat;                      (* readings taken so far *)
  uuid4 : nat -> string;            (* results of str(uuid.uuid4()) *)
  uuids : nat;                      (* UUIDs drawn so far *)
  store_fault : nat -> bool;        (* which pymongo calls fail *)
  store_ops : nat }.                (* pymongo calls made so far *)

Definition set_sessions (l : list Session) (w : World) : World :=
  mkWorld l (users w) (clock w) (ticks w) (uuid4 w) (uuids w)
          (store_fault w) (store_ops w).

Definition advance_clock (w : World) : World :=
  mkWorld (sessions w) (users w) (clock w) (S (ticks w)) (uuid4 w) (uuids w)
          (store_fault w) (store_ops w).

Definition advance_uuid (w : World) : World :=
  mkWorld (sessions w) (users w) (clock w) (ticks w) (uuid4 w) (S (uuids w))
          (store_fault w) (store_ops w).

Definition count_store_op (w : World) : World :=
  mkWorld (sessions w) (users w) (clock w) (ticks w) (uuid4 w) (uuids w)
          (store_fault w) (S (store_ops w)).

Definition M (A : Type) : Type := World -> Result A * World.

Definition ret {A} (v : A) : M A := fun w => (Ok v, w).

Definition raise {A} (e : exn) : M A := fun w => (Raise e, w).

Definition bind {A B} (m : M A) (k : A -> M B) : M B :=
  fun w =>
    match m w with
    | (Ok v, w') => k v w'
    | (Raise e, w') => (Raise e, w')
    end.

Notation "x <- m ;; k" := (bind m (fun x => k))
  (at level 61, m at next level, right associativity).
Notation "m ;;; k" := (bind m (fun _ => k))
  (at level 61, right associativity).

(** [try: body  except ...: handler]: [handler e] is [Some h] when one of the
    [except] clauses matches [e]; an unmatched exception propagates. *)
Definition try_except {A} (body : M A) (handler : exn -> option (M A)) : M A :=
  fun w =>
    match body w with
    | (Ok v, w') => (Ok v, w')
    | (Raise e, w') =>
        match handler e with
        | Some h => h w'
        | None => (Raise e, w')
        end
    end.

(** Lift a pure computation that may raise. *)
Definition lift {A} (r : Result A) : M A := fun w => (r, w).

(** [datetime.utcnow()]. *)
Definition utcnow : M Z :=
  fun w => (Ok (clock w (ticks w)), advance_clock w).

(** [str(uuid.uuid4())]. *)
Definition uuid4_str : M string :=
  fun w => (Ok (uuid4 w (uuids w)), advance_uuid w).

Definition timedelta_hours_1 : Z := 3600.
Definition timedelta_days_30 : Z := 2592000.

(** ** MongoDB collections (pymongo) *)

(** One pymongo call: it fails as a whole, before touching the collection,
    when the fault oracle says so. *)
Definition store_call {A} (f : World -> A * World) : M A :=
  fun w =>
    let w' := count_store_op w in
    if store_fault w (store_ops w) then (Raise PyMongoError, w')
    else let (v, w'') := f w' in (Ok v, w'').

(** The filter [{"invalidate_id": q}]. *)
Definition matches (q : Value) (s : Session) : bool :=
  value_eqb q (VStr (sess_invalidate_id s)).

Fixpoint remove_first {A} (p : A -> bool) (l : list A) : list A :=
  match l with
  | [] => []
  | x :: l' => if p x then l' else x :: remove_first p l'
  end.

Fixpoint update_first {A} (p : A -> bool) (f : A -> A) (l : list A) : list A :=
  match l with
  | [] => []
  | x :: l' => if p x then f x :: l' else x :: update_first p f l'
  end.

Definition set_last_used (t : Z) (s : Session) : Session :=
  mkSession (sess_invalidate_id s) (sess_user_id s) (sess_created_at s)
            (sess_expires_at s) t (sess_is_active s) (sess_ip_address s)
            (sess_client_info s).

(** [db.sessions.insert_one(doc)]. *)
Definition insert_one (doc : Session) : M unit :=
  store_call (fun w => (tt, set_sessions (sessions w ++ [doc]) w)).

(** [db.sessions.find_one({"invalidate_id": q})]. *)
Definition find_one (q : Value) : M (option Session) :=
  store_call (fun w => (find (matches q) (sessions w), w)).

(** [db.sessions.update_one({"invalidate_id": q}, {"$set": {"last_used": t}})]. *)
Definition update_one (q : Value) (t : Z) : M unit :=
  store_call (fun w =>
    (tt, set_sessions (update_first (matches q) (set_last_used t) (sessions w)) w)).

(** [db.sessions.delete_one({"invalidate_id": q})]. *)
Definition delete_one (q : Value) : M unit :=
  store_call (fun w =>
    (tt, set_sessions (remove_first (matches q) (sessions w)) w)).

(** [db.sessions.delete_many({"expires_at": {"$lt": t}})]. *)
Definition delete_many (t : Z) : M unit :=
  store_call (fun w =>
    (tt, set_sessions (filter (fun s => negb (sess_expires_at s <? t)) (sessions w)) w)).

(** [db.users.find_one({"_id": oid})]; [oid = None] stands for an id that
    was generated on the spot and names no stored user. *)
Definition users_find_one (oid : option ObjectIdT) : M (option User) :=
  store_call (fun w =>
    (match oid with
     | Some i => find (fun u => String.eqb (user__id u) i) (users w)
     | None => None
     end, w)).

(** ** bson.ObjectId *)

Definition is_hex_digit (c : ascii) : bool :=
  let n := nat_of_ascii c in
  ((48 <=? n) && (n <=? 57) || (97 <=? n) && (n <=? 102)
   || (65 <=? n) && (n <=? 70))%nat.

Definition lower_hex (c : ascii) : ascii :=
  let n := nat_of_ascii c in
  if ((65 <=? n) && (n <=? 70))%nat then ascii_of_nat (n + 32) else c.

Fixpoint all_hex (s : string) : bool :=
  match s with
  | EmptyString => true
  | String c s' => is_hex_digit c && all_hex s'
  end.

Fixpoint map_string (f : ascii -> ascii) (s : string) : string :=
  match s with
  | EmptyString => EmptyString
  | String c s' => String (f c) (map_string f s')
  end.

(** [ObjectId(oid)] for a string: 24 hex digits or [InvalidId]. *)
Definition ObjectId (oid : string) : Result ObjectIdT :=
  if (Nat.eqb (String.length oid) 24 && all_hex oid)%bool
  then Ok (map_string lower_hex oid)
  else Raise InvalidId.

(** [ObjectId(v)] for a value out of a payload: [ObjectId(None)] generates
    an id, any other non-string is a [TypeError]. *)
Definition ObjectId_of_value (v : Value) : Result (option ObjectIdT) :=
  match v with
  | VStr s =>
      match ObjectId s with
      | Ok i => Ok (Some i)
      | Raise e => Raise e
      end
  | VNone => Ok None
  | VTime _ => Raise TypeError
  end.

(** ** PyJWT *)

(** [jwt.encode(payload, key, algorithm=algorithm)]. *)
Definition jwt_encode (payload : Dict) (key algorithm : string) : Token :=
  Signed algorithm key payload.

(** Validation of one registered time claim: skipped when the claim is
    absent, [DecodeError] when it is not a date, [err] when [bad] holds. *)
Definition validate_time_claim (payload : Dict) (k : string)
    (bad : Z -> bool) (err : exn) : Result unit :=
  if dict_has payload k then
    match dict_get payload k with
    | VTime t => if bad t then Raise err else Ok tt
    | _ => Raise DecodeError
    end
  else Ok tt.

(** [jwt.decode(token, key, algorithms=algorithms)] with PyJWT's default
    options: the structure, the algorithm and the signature are checked
    first; then, against one reading of the clock, [iat] and [nbf] must not
    lie in the future ([ImmatureSignatureError]) and [exp] must lie in the
    future ([ExpiredSignatureError] once [exp <= now]); a claim that is
    absent is not checked. *)
Definition jwt_decode (token : Token) (key : string) (algorithms : list string)
  : M Dict :=
  match token with
  | Garbage _ => raise DecodeError
  | Signed alg k payload =>
      if negb (existsb (String.eqb alg) algorithms) then raise InvalidAlgorithmError
      else if negb (String.eqb k key) then raise InvalidSignatureError
      else
        now <- utcnow ;;
        lift (validate_time_claim payload "iat" (fun t => now <? t)
                ImmatureSignatureError) ;;;
        lift (validate_time_claim payload "nbf" (fun t => now <? t)
                ImmatureSignatureError) ;;;
        lift (validate_time_claim payload "exp" (fun t => t <=? now)
                ExpiredSignatureError) ;;;
        ret payload
  end.

(** A cookie value that is the empty string is falsy. *)
Definition token_truthy (t : Token) : bool :=
  match t with
  | Garbage "" => false
  | _ => true
  end.

(** The claims a token string carries, whoever signed it. *)
Definition token_claims (t : Token) : Dict :=
  match t with
  | Signed _ _ claims => claims
  | Garbage _ => []
  end.

(** ** security.py, routers/auth.py, main.py *)

Inductive CookieOp : Type :=
| SetCookie (c : Cookie)
| DeleteCookie (key : string).

Section Backend.

(** [from config import JWT_ALGORITHM, JWT_SECRET]. *)
Variables JWT_SECRET JWT_ALGORITHM : string.

Definition parse_user_agent (user_agent_string : option string) : ClientInfo :=
  match user_agent_string with
  | None => None
  | Some "" => None
  | Some ua => Some ua
  end.

Definition create_session_tokens (user_id email : string) (request : Request)
  : M (Token * Token) :=
  invalidate_id <- uuid4_str ;;
  now1 <- utcnow ;;
  let access_expires := now1 + timedelta_hours_1 in
  jti <- uuid4_str ;;
  iat <- utcnow ;;
  nbf <- utcnow ;;
  let access_token :=
    jwt_encode
      [ ("user_id", VStr user_id);
        ("sub", VStr email);
        ("exp", VTime access_expires);
        ("type", VStr "access");
        ("invalidate_id", VStr invalidate_id);
        ("jti", VStr jti);
        ("iat", VTime iat);
        ("nbf", VTime nbf) ]
      JWT_SECRET JWT_ALGORITHM in
  now4 <- utcnow ;;
  let refresh_expires := now4 + timedelta_days_30 in
  let refresh_token :=
    jwt_encode
      [ ("user_id", VStr user_id);
        ("exp", VTime refresh_expires);
        ("type", VStr "refresh");
        ("invalidate_id", VStr invalidate_id) ]
      JWT_SECRET JWT_ALGORITHM in
  oid <- lift (ObjectId user_id) ;;
  created_at <- utcnow ;;
  last_used <- utcnow ;;
  host <- match client_host request with
          | Some h => ret h
          | None => raise AttributeError
          end ;;
  let session_data :=
    mkSession invalidate_id oid created_at refresh_expires last_used true
              host (parse_user_agent (header_user_agent request)) in
  insert_one session_data ;;;
  ret (access_token, refresh_token).

Definition verify_token (token : Token) (token_type : string) : M Dict :=
  try_except
    (payload <- jwt_decode token JWT_SECRET [JWT_ALGORITHM] ;;
     if negb (value_eqb (dict_get payload "type") (VStr token_type))
     then raise (HTTPException 401 "Invalid token type")
     else
       session <- find_one (dict_get payload "invalidate_id") ;;
       match session with
       | None => raise (HTTPException 401 "Invalid session")
       | Some _ =>
           now <- utcnow ;;
           update_one (dict_get payload "invalidate_id") now ;;;
           ret payload
       end)
    (fun e =>
       match e with
       | ExpiredSignatureError =>
           Some (raise (HTTPException 401 "Token has expired"))
       | _ =>
           if is_InvalidTokenError e
           then Some (raise (HTTPException 401 "Invalid token"))
           else None
       end).

Definition invalidate_session (invalidate_id : Value) : M unit :=
  delete_one invalidate_id.

Definition set_auth_cookies (access_token refresh_token : Token)
  : list CookieOp :=
  [ SetCookie (mkCookie "access_token" access_token true true "lax" 3600);
    SetCookie (mkCookie "refresh_token" refresh_token true true "lax" 2592000) ].

Definition clear_auth_cookies : list CookieOp :=
  [ DeleteCookie "access_token"; DeleteCookie "refresh_token" ].

Definition get_current_user (request : Request) : M Value :=
  match cookies_get (cookies request) "access_token" with
  | None => raise (HTTPException 401 "Not authenticated")
  | Some access_token =>
      if negb (token_truthy access_token)
      then raise (HTTPException 401 "Not authenticated")
      else
        payload <- verify_token access_token "access" ;;
        ret (dict_get payload "sub")
  end.

(** [POST /sessions/refresh]; the result is what the route does to the
    response's cookies. *)
Definition refresh_token (request : Request) : M (list CookieOp) :=
  match cookies_get (cookies request) "refresh_token" with
  | None => raise (HTTPException 401 "No refresh token")
  | Some refresh_token =>
      if negb (token_truthy refresh_token)
      then raise (HTTPException 401 "No refresh token")
      else
        try_except
          (payload <- verify_token refresh_token "refresh" ;;
           let user_id := dict_get payload "user_id" in
           let invalidate_id := dict_get payload "invalidate_id" in
           oid <- lift (ObjectId_of_value user_id) ;;
           user <- users_find_one oid ;;
           match user with
           | None => raise (HTTPException 404 "User not found")
           | Some user =>
               now <- utcnow ;;
               let access_token :=
                 jwt_encode
                   [ ("user_id", VStr (user__id user));
                     ("sub", VStr (user_email user));
                     ("exp", VTime (now + timedelta_hours_1));
                     ("type", VStr "access");
                     ("invalidate_id", invalidate_id) ]
                   JWT_SECRET JWT_ALGORITHM in
               ret (set_auth_cookies access_token refresh_token)
           end)
          (fun _ => Some (raise (HTTPException 401 "Invalid refresh token")))
  end.

(** [DELETE /sessions]. *)
Definition logout (request : Request) : M (list CookieOp) :=
  match cookies_get (cookies request) "access_token" with
  | Some access_token =>
      if token_truthy access_token then
        try_except
          (payload <- jwt_decode access_token JWT_SECRET [JWT_ALGORITHM] ;;
           let invalidate_id := dict_get payload "invalidate_id" in
           if truthy invalidate_id then invalidate_session invalidate_id
           else ret tt)
          (fun e => if is_InvalidTokenError e then Some (ret tt) else None)
      else ret tt
  | None => ret tt
  end ;;;
  ret clear_auth_cookies.

(** One turn of the [while True] loop of [cleanup_expired_sessions]; the
    result is the number of seconds the loop sleeps before its next turn. *)
Definition cleanup_expired_sessions_turn : M Z :=
  try_except
    (now <- utcnow ;;
     delete_many now ;;;
     ret 3600)
    (fun _ => Some (ret 60)).

(** The operations the backend performs on the session store, as a trace
    alphabet: what runs between two events of interest. *)
Inductive Op : Type :=
| OpCreateSession (user_id email : string) (request : Request)
| OpVerifyToken (token : Token) (token_type : string)
| OpGetCurrentUser (request : Request)
| OpRefresh (request : Request)
| OpLogout (request : Request)
| OpInvalidateSession (invalidate_id : Value)
| OpSweep.

Definition run_op (o : Op) (w : World) : World :=
  match o with
  | OpCreateSession user_id email request =>
      snd (create_session_tokens user_id email request w)
  | OpVerifyToken token token_type => snd (verify_token token token_type w)
  | OpGetCurrentUser request => snd (get_current_user request w)
  | OpRefresh request => snd (refresh_token request w)
  | OpLogout request => snd (logout request w)
  | OpInvalidateSession invalidate_id => snd (invalidate_session invalidate_id w)
  | OpSweep => snd (cleanup_expired_sessions_turn w)
  end.

Definition run_ops (ops : list Op) (w : World) : World :=
  fold_left (fun w' o => run_op o w') ops w.

End Backend.

(** ** Predicates of the specification *)


(** PyJWT's checks of [iat] and [nbf] pass at time [now]. *)
Definition not_immature (payload : Dict) (now : Z) : Prop :=
  validate_time_claim payload "iat" (fun t => now <? t) ImmatureSignatureError = Ok tt
  /\ validate_time_claim payload "nbf" (fun t => now <? t) ImmatureSignatureError = Ok tt.

(** PyJWT's three time checks pass at [now]. *)
Definition time_claims_valid (p : Dict) (now : Z) : Prop :=
  not_immature p now
  /\ validate_time_claim p "exp" (fun t => t <=? now) ExpiredSignatureError = Ok tt.

(** The [k]-th reading of the clock counted from now. *)
Definition reading (w : World) (k : nat) : Z := clock w (ticks w + k).

(** The invalidation id a token carries. *)
Definition carries (t : Token) (id : string) : Prop :=
  dict_get (token_claims t) "invalidate_id" = VStr id.

(** The unique index on [invalidate_id] of the sessions collection. *)
Definition unique_invalidate_ids (w : World) : Prop :=
  NoDup (map sess_invalidate_id (sessions w)).

(** No session record has invalidation id [id]. *)
Definition no_session (id : string) (w : World) : Prop :=
  ~ In id (map sess_invalidate_id (sessions w)).

(** The UUID generator does not issue [id] from now on. *)
Definition never_reissued (id : string) (w : World) : Prop :=
  forall n, (uuids w <= n)%nat -> uuid4 w n <> id.

(** The session [id] is gone for good. *)
Definition revoked (id : string) (w : World) : Prop :=
  no_session id w /\ never_reissued id w.

(** The next pymongo call goes through. *)
Definition store_up (w : World) : Prop :=
  store_fault w (store_ops w) = false.

(** [stable I m]: running [m] keeps the world inside [I], whether [m]
    returns or raises. *)
Definition stable {A} (I : World -> Prop) (m : M A) : Prop :=
  forall w, I w -> I (snd (m w)).

(** [w'] has sessions of [w] only, pairwise distinct by invalidation id if
    those of [w] were, and the same UUID generator, further on. *)
Definition fewer_sessions (w w' : World) : Prop :=
  uuid4 w' = uuid4 w
  /\ (uuids w <= uuids w')%nat
  /\ incl (map sess_invalidate_id (sessions w'))
          (map sess_invalidate_id (sessions w))
  /\ (NoDup (map sess_invalidate_id (sessions w)) ->
      NoDup (map sess_invalidate_id (sessions w'))).

(** [w'] has the sessions of [w] and one more, under the next UUID of [w]. *)
Definition one_more_session (w w' : World) : Prop :=
  uuid4 w' = uuid4 w
  /\ (uuids w < uuids w')%nat
  /\ map sess_invalidate_id (sessions w')
     = (map sess_invalidate_id (sessions w) ++ [uuid4 w (uuids w)])%list.

(** The store as the backend builds it: invalidation ids are pairwise
    distinct UUIDs already drawn from a generator that never repeats. *)
Definition well_formed (w : World) : Prop :=
  unique_invalidate_ids w
  /\ (forall id, In id (map sess_invalidate_id (sessions w)) ->
      exists k, (k < uuids w)%nat /\ uuid4 w k = id)
  /\ (forall i j, uuid4 w i = uuid4 w j -> i = j).

(** ** Sample data *)

Module Sample.

Definition secret : string := "s3cr3t".
Definition algorithm : string := "HS256".

Definition alice : User := mkUser "0123456789abcdef01234567" "a@x.com".

(** A clock that advances by one second at every reading. *)
Definition ticking (n : nat) : Z := 1000 + Z.of_nat n.

(** A clock that stands still: every reading falls in the same second. *)
Definition same_second (n : nat) : Z := 1000.

Fixpoint uuid_of (n : nat) : string :=
  match n with
  | O => "u"
  | S n' => String "x" (uuid_of n')
  end.

Definition no_fault (n : nat) : bool := false.

Definition browser : Request := mkRequest (Some "203.0.113.7") (Some "Mozilla/5.0") [].

Definition with_cookie (k : string) (t : Token) : Request :=
  mkRequest (Some "203.0.113.7") (Some "Mozilla/5.0") [(k, t)].

(** An empty store with one registered user. *)
Definition w0 : World := mkWorld [] [alice] ticking 0 uuid_of 0 no_fault 0.

Definition login (w : World) : Result (Token * Token) * World :=
  create_session_tokens secret algorithm (user__id alice) (user_email alice) browser w.

Definition access_of (r : Result (Token * Token)) : Token :=
  match r with Ok (a, _) => a | Raise _ => Garbage "" end.

Definition refresh_of (r : Result (Token * Token)) : Token :=
  match r with Ok (_, t) => t | Raise _ => Garbage "" end.

(** The world after Alice has logged in, and her two tokens. *)
Definition w1 : World := snd (login w0).
Definition access1 : Token := access_of (fst (login w0)).
Definition refresh1 : Token := refresh_of (fst (login w0)).

(** Alice's browser coming back with both cookies. *)
Definition returning : Request :=
  mkRequest (Some "203.0.113.7") (Some "Mozilla/5.0")
            [("access_token", access1); ("refresh_token", refresh1)].


(** The same world seen through another clock or another fault schedule. *)
Definition with_clock (c : nat -> Z) (w : World) : World :=
  mkWorld (sessions w) (users w) c (ticks w) (uuid4 w) (uuids w)
          (store_fault w) (store_ops w).

Definition with_faults (f : nat -> bool) (w : World) : World :=
  mkWorld (sessions w) (users w) (clock w) (ticks w) (uuid4 w) (uuids w)
          f (store_ops w).

(** More than a day later: the access token of [w1] has expired. *)
Definition w1_next_day : World :=
  with_clock (fun n => 100000 + Z.of_nat n) w1.

(** Alice's access claims under a key that is not the server's. *)
Definition forged : Token := Signed algorithm "guess" (token_claims access1).

(** After Alice has logged out. *)
Definition w1_logged_out : World := snd (logout secret algorithm returning w1).

(** The store answers the next call and fails the one after it. *)
Definition w1_touch_fails : World :=
  with_faults (fun n => Nat.eqb n (S (store_ops w1))) w1.

(** The store is down. *)
Definition w0_store_down : World := with_faults (fun _ => true) w0.

(** Alice logs in while the clock stands still. *)
Definition w0_still : World := with_clock same_second w0.
Definition w1_still : World := snd (login w0_still).
Definition refresh1_still : Token := refresh_of (fst (login w0_still)).
Definition returning_still : Request := with_cookie "refresh_token" refresh1_still.



(** Alice refreshes her access token right after logging in. *)
Definition refreshed : Result (list CookieOp) * World :=
  refresh_token secret algorithm returning w1.

Definition cookies_of (r : Result (list CookieOp)) : list CookieOp :=
  match r with Ok c => c | Raise _ => [] end.

End Sample.

(** ** routers/data.py: username availability *)

(** A Python [str] as its code points. *)
Definition Text : Type := list N.

Fixpoint text_of_string (s : string) : Text :=
  match s with
  | EmptyString => []
  | String c s' => N_of_ascii c :: text_of_string s'
  end.

Definition text_eqb (a b : Text) : bool :=
  if list_eq_dec N.eq_dec a b then true else false.

(** [s.isascii()]. *)
Definition isascii (s : Text) : bool := forallb (fun c => c <? 128)%N s.

Definition is_ascii_digit (c : N) : bool := ((48 <=? c) && (c <=? 57))%N.

Definition is_ascii_letter (c : N) : bool :=
  ((65 <=? c) && (c <=? 90) || (97 <=? c) && (c <=? 122))%N.

(** [c.isalnum()] for an ASCII character [c]: the route calls it only on
    strings that passed [isascii]. *)
Definition isalnum_ascii (c : N) : bool := is_ascii_letter c || is_ascii_digit c.

Definition underscore : N := 95.

(** [s.replace("_", "")]. *)
Definition remove_underscores (s : Text) : Text :=
  filter (fun c => negb (c =? underscore)%N) s.

(** [s.isdigit()] for an ASCII string [s]: false on the empty string. *)
Definition isdigit_ascii (s : Text) : bool :=
  match s with
  | [] => false
  | _ => forallb is_ascii_digit s
  end.

(** The JSON object the route returns: ["reason"] is present only when the
    name is refused by validation. *)
Record Availability : Type := mkAvailability {
  available : bool;
  reason : option string }.

Section Usernames.

(** The ["username"] field of a user document, which the record [User] does
    not carry; [None] for a document without the field. *)
Variable username_of : User -> option Text.

(** [db.users.find_one({"username": username}, {"_id": 1})]. *)
Definition users_find_one_by_username (username : Text) : M (option User) :=
  store_call (fun w =>
    (find (fun u => match username_of u with
                    | Some n => text_eqb n username
                    | None => false
                    end) (users w), w)).

(** [GET /usernames/availability]. *)
Definition check_username_availability (username : Text) : M Availability :=
  if ((List.length username <? 3) || (30 <? List.length username))%nat
  then ret (mkAvailability false
              (Some "Username must be between 3 and 30 characters"))
  else if negb (isascii username)
  then ret (mkAvailability false
              (Some "Username can only contain ASCII characters"))
  else if negb (forallb (fun c => isalnum_ascii c || (c =? underscore)%N) username)
  then ret (mkAvailability false
              (Some "Username can only contain letters, numbers and underscores"))
  else if isdigit_ascii (remove_underscores username)
  then ret (mkAvailability false
              (Some "Username cannot be made up of only numbers"))
  else
    existing_user <- users_find_one_by_username username ;;
    ret (mkAvailability (match existing_user with None => true | Some _ => false end)
           None).

End Usernames.

(** A username that passes the four checks of the route. *)
Definition valid_username (username : Text) : Prop :=
  (3 <= List.length username <= 30)%nat
  /\ (forall c, In c username ->
        is_ascii_letter c = true \/ is_ascii_digit c = true \/ c = underscore)
  /\ ((exists c, In c username /\ is_ascii_letter c = true)
      \/ forall c, In c username -> c = underscore).

(** A session document with its [last_used] blanked: what a touch cannot
    change. *)
Definition forget_last_used (s : Session) : Session := set_last_used 0 s.

(** ** Scenarios *)

Module Scenario.

(** The same world with another users collection. *)
Definition with_users (us : list User) (w : World) : World :=
  mkWorld (sessions w) us (clock w) (ticks w) (uuid4 w) (uuids w)
          (store_fault w) (store_ops w).

(** Alice's account was deleted after she logged in. *)
Definition w1_alice_gone : World := with_users [] Sample.w1.

(** Alice changed her e-mail address after she logged in. *)
Definition w1_alice_moved : World :=
  with_users [mkUser "0123456789abcdef01234567" "alice@y.org"] Sample.w1.


(** The access token set by Alice's refresh, and her browser with it. *)
Definition refreshed_access : Token :=
  match Sample.cookies_of (fst Sample.refreshed) with
  | SetCookie c :: _ => cookie_value c
  | _ => Garbage ""
  end.

Definition returning_refreshed : Request :=
  Sample.with_cookie "access_token" refreshed_access.

(** Usernames of the two registered users of the username scenario. *)
Definition username_of (u : User) : option Text :=
  if String.eqb (user_email u) "a@x.com" then Some (text_of_string "alice")
  else None.

End Scenario.

(** * Properties *)

(** ** Lists of session documents *)

Lemma find_none_remove_first {A} (p : A -> bool) (l : list A) :
  find p l = None -> remove_first p l = l.
Proof.
  induction l as [|x l IH]; simpl; [reflexivity|].
  destruct (p x); [discriminate|].
  intros H. now rewrite IH.
Qed.

Lemma matches_VStr (id : string) (s : Session) :
  matches (VStr id) s = true <-> sess_invalidate_id s = id.
Proof.
  unfold matches; simpl. rewrite String.eqb_eq. split; congruence.
Qed.

Lemma matches_same_id (q : Value) (s t : Session) :
  matches q s = true -> matches q t = true ->
  sess_invalidate_id t = sess_invalidate_id s.
Proof.
  unfold matches. destruct q; simpl; try discriminate.
  rewrite !String.eqb_eq. congruence.
Qed.

Lemma find_matches_absent (q : Value) (s : Session) (l : list Session) :
  matches q s = true ->
  ~ In (sess_invalidate_id s) (map sess_invalidate_id l) ->
  find (matches q) l = None.
Proof.
  intros Hs. induction l as [|t l IH]; simpl; [reflexivity|].
  intros Hn. destruct (matches q t) eqn:Ht.
  - exfalso. apply Hn. left. eapply matches_same_id; eauto.
  - apply IH. tauto.
Qed.

Lemma remove_first_unique (q : Value) (l : list Session) :
  NoDup (map sess_invalidate_id l) ->
  find (matches q) (remove_first (matches q) l) = None.
Proof.
  induction l as [|s l IH]; simpl; [reflexivity|].
  intros Hnd. inversion Hnd as [|? ? Hnotin Hnd']; subst.
  destruct (matches q s) eqn:Hs.
  - eapply find_matches_absent; eauto.
  - simpl. rewrite Hs. auto.
Qed.

Lemma no_session_find (id : string) (l : list Session) :
  ~ In id (map sess_invalidate_id l) <-> find (matches (VStr id)) l = None.
Proof.
  induction l as [|s l IH]; cbn [find map In]; [tauto|].
  destruct (matches (VStr id) s) eqn:Hs.
  - apply matches_VStr in Hs.
    split; [intros Hn; exfalso; apply Hn; now left|discriminate].
  - rewrite <- IH. split; [tauto|].
    intros Hn [He|Hi]; [|tauto].
    apply matches_VStr in He. congruence.
Qed.

Lemma ids_remove_first (p : Session -> bool) (l : list Session) :
  incl (map sess_invalidate_id (remove_first p l)) (map sess_invalidate_id l).
Proof.
  induction l as [|s l IH]; simpl; [apply incl_refl|].
  destruct (p s); simpl.
  - apply incl_tl, incl_refl.
  - apply incl_cons; [now left|]. now apply incl_tl.
Qed.

Lemma ids_update_first (p : Session -> bool) (t : Z) (l : list Session) :
  map sess_invalidate_id (update_first p (set_last_used t) l)
  = map sess_invalidate_id l.
Proof.
  induction l as [|s l IH]; simpl; [reflexivity|].
  destruct (p s); simpl; [reflexivity|]. now rewrite IH.
Qed.

Lemma ids_filter (p : Session -> bool) (l : list Session) :
  incl (map sess_invalidate_id (filter p l)) (map sess_invalidate_id l).
Proof.
  intros x Hx. apply in_map_iff in Hx as [s [<- Hs]].
  apply filter_In in Hs as [Hs _]. now apply in_map.
Qed.

Lemma nodup_remove_first (p : Session -> bool) (l : list Session) :
  NoDup (map sess_invalidate_id l) ->
  NoDup (map sess_invalidate_id (remove_first p l)).
Proof.
  induction l as [|s l IH]; simpl; [auto|].
  intros Hnd. inversion Hnd as [|? ? Hnotin Hnd']; subst.
  destruct (p s); simpl; [assumption|].
  constructor; [|auto].
  intros Hin. apply Hnotin. eapply ids_remove_first; eauto.
Qed.

(** ** The token codec *)


Lemma existsb_single {A} (f : A -> bool) (x : A) : existsb f [x] = f x.
Proof. simpl. apply orb_false_r. Qed.

(** [jwt.decode] only raises subclasses of [InvalidTokenError]. *)
Lemma jwt_decode_raises (t : Token) (key : string) (algs : list string)
    (w w' : World) (e : exn) :
  jwt_decode t key algs w = (Raise e, w') -> is_InvalidTokenError e = true.
Proof.
  unfold jwt_decode, raise. destruct t as [a k p|raw].
  - destruct (negb (existsb (String.eqb a) algs)); [intros [= <- _]; reflexivity|].
    destruct (negb (String.eqb k key)); [intros [= <- _]; reflexivity|].
    unfold bind, utcnow, lift, ret, validate_time_claim.
    repeat match goal with
           | |- context [if ?b then _ else _] => destruct b
           | |- context [match dict_get ?d ?k with _ => _ end] => destruct (dict_get d k)
           end;
      intros [= <- _]; reflexivity.
  - intros [= <- _]; reflexivity.
Qed.

(** What [jwt.decode] accepts: a token signed with the expected key under
    the expected algorithm, whose claims it returns after one reading of the
    clock. *)
Lemma jwt_decode_ok (t : Token) (key alg : string) (w w' : World) (p : Dict) :
  jwt_decode t key [alg] w = (Ok p, w') ->
  t = Signed alg key p /\ w' = advance_clock w.
Proof.
  unfold jwt_decode, raise. destruct t as [a k c|raw]; [|discriminate].
  rewrite existsb_single.
  destruct (String.eqb a alg) eqn:Ha; simpl; [|discriminate].
  destruct (String.eqb k key) eqn:Hk; simpl; [|discriminate].
  apply String.eqb_eq in Ha, Hk. subst.
  unfold bind, utcnow, lift, ret, validate_time_claim.
  repeat match goal with
         | |- context [if ?b then _ else _] => destruct b
         | |- context [match dict_get ?d ?k with _ => _ end] => destruct (dict_get d k)
         end;
    try discriminate; intros [= <- <-]; auto.
Qed.

(** The outcome of [jwt.decode] on a well-signed token, in terms of the
    three claim validations at the reading [clock w (ticks w)]. *)
Lemma jwt_decode_signed (key alg : string) (p : Dict) (w : World) :
  let now := clock w (ticks w) in
  jwt_decode (Signed alg key p) key [alg] w =
    (match validate_time_claim p "iat" (fun t => now <? t) ImmatureSignatureError with
     | Raise e => Raise e
     | Ok _ =>
         match validate_time_claim p "nbf" (fun t => now <? t) ImmatureSignatureError with
         | Raise e => Raise e
         | Ok _ =>
             match validate_time_claim p "exp" (fun t => t <=? now) ExpiredSignatureError with
             | Raise e => Raise e
             | Ok _ => Ok p
             end
         end
     end, advance_clock w).
Proof.
  unfold jwt_decode. rewrite existsb_single, !String.eqb_refl. simpl.
  unfold bind, utcnow, lift, ret.
  destruct (validate_time_claim p "iat" _ _); [|reflexivity].
  destruct (validate_time_claim p "nbf" _ _); [|reflexivity].
  destruct (validate_time_claim p "exp" _ _); reflexivity.
Qed.


(** ** [verify_token], case by case *)

Lemma verify_token_decode_error (key alg : string) (t : Token) (kind : string)
    (w w1 : World) (e : exn) :
  jwt_decode t key [alg] w = (Raise e, w1) ->
  verify_token key alg t kind w =
    (Raise (HTTPException 401
              match e with
              | ExpiredSignatureError => "Token has expired"
              | _ => "Invalid token"
              end), w1).
Proof.
  intros H. pose proof (jwt_decode_raises _ _ _ _ _ _ H) as He.
  unfold verify_token, try_except, bind. rewrite H.
  destruct e; try discriminate; reflexivity.
Qed.

Lemma verify_token_decoded (key alg : string) (t : Token) (kind : string)
    (w w1 : World) (p : Dict) :
  jwt_decode t key [alg] w = (Ok p, w1) ->
  verify_token key alg t kind w =
    if negb (value_eqb (dict_get p "type") (VStr kind))
    then (Raise (HTTPException 401 "Invalid token type"), w1)
    else if store_fault w1 (store_ops w1)
    then (Raise PyMongoError, count_store_op w1)
    else
      match find (matches (dict_get p "invalidate_id")) (sessions w1) with
      | None => (Raise (HTTPException 401 "Invalid session"), count_store_op w1)
      | Some _ =>
          let w2 := count_store_op (advance_clock (count_store_op w1)) in
          if store_fault w1 (S (store_ops w1))
          then (Raise PyMongoError, w2)
          else (Ok p,
                set_sessions
                  (update_first (matches (dict_get p "invalidate_id"))
                     (set_last_used (clock w1 (ticks w1))) (sessions w1)) w2)
      end.
Proof.
  intros H. unfold verify_token, try_except, bind. rewrite H.
  destruct (negb (value_eqb (dict_get p "type") (VStr kind))); [reflexivity|].
  unfold find_one, update_one, store_call, utcnow, raise, ret.
  destruct (store_fault w1 (store_ops w1)); [reflexivity|].
  cbn [sessions count_store_op].
  destruct (find (matches (dict_get p "invalidate_id")) (sessions w1));
    [|reflexivity].
  cbn [store_fault store_ops count_store_op advance_clock].
  destruct (store_fault w1 (S (store_ops w1))); reflexivity.
Qed.

(** ** Invariants of the session store *)

Section Stable.

Variable I : World -> Prop.

Lemma stable_ret {A} (v : A) : stable I (ret v).
Proof. intros w H. exact H. Qed.

Lemma stable_raise {A} (e : exn) : stable I (@raise A e).
Proof. intros w H. exact H. Qed.

Lemma stable_lift {A} (r : Result A) : stable I (lift r).
Proof. intros w H. exact H. Qed.

Lemma stable_bind {A B} (m : M A) (k : A -> M B) :
  stable I m -> (forall v, stable I (k v)) -> stable I (bind m k).
Proof.
  intros Hm Hk w H. unfold bind. specialize (Hm w H).
  destruct (m w) as [[v|e] w']; simpl in *; [now apply Hk|assumption].
Qed.

Lemma stable_try_except {A} (body : M A) (handler : exn -> option (M A)) :
  stable I body ->
  (forall e h, handler e = Some h -> stable I h) ->
  stable I (try_except body handler).
Proof.
  intros Hb Hh w H. unfold try_except. specialize (Hb w H).
  destruct (body w) as [[v|e] w']; simpl in *; [assumption|].
  destruct (handler e) as [h|] eqn:He; [|assumption].
  now apply (Hh e h He).
Qed.

Lemma stable_store_call {A} (f : World -> A * World) :
  (forall w, I w -> I (count_store_op w)) ->
  (forall w, I w -> I (snd (f w))) ->
  stable I (store_call f).
Proof.
  intros Hc Hf w H. unfold store_call.
  destruct (store_fault w (store_ops w)); simpl; [now apply Hc|].
  specialize (Hf _ (Hc w H)).
  destruct (f (count_store_op w)) as [v w'']. exact Hf.
Qed.

End Stable.

Lemma nodup_ids_filter (p : Session -> bool) (l : list Session) :
  NoDup (map sess_invalidate_id l) ->
  NoDup (map sess_invalidate_id (filter p l)).
Proof.
  induction l as [|s l IH]; simpl; [auto|].
  intros Hnd. inversion Hnd as [|? ? Hnotin Hnd']; subst.
  destruct (p s); simpl; [|auto].
  constructor; [|auto].
  intros Hin. apply Hnotin. eapply ids_filter; eauto.
Qed.

Ltac fewer_sessions_tac :=
  unfold fewer_sessions; simpl;
  repeat split;
  auto using incl_refl, ids_remove_first, ids_filter, nodup_remove_first,
    nodup_ids_filter.

(** Every operation but session creation keeps each invariant that survives
    the loss of sessions; session creation keeps those that also survive the
    insertion of a session under the next UUID. *)
Section StoreInvariant.

Variable I : World -> Prop.
Hypothesis I_fewer : forall w w', fewer_sessions w w' -> I w -> I w'.
Hypothesis I_insert : forall w w', one_more_session w w' -> I w -> I w'.

Lemma stable_count_store_op (w : World) : I w -> I (count_store_op w).
Proof. apply I_fewer. fewer_sessions_tac. Qed.

Lemma stable_utcnow : stable I utcnow.
Proof. intros w. apply I_fewer. fewer_sessions_tac. Qed.

Lemma stable_uuid4_str : stable I uuid4_str.
Proof. intros w. apply I_fewer. fewer_sessions_tac. Qed.

Lemma stable_find_one (q : Value) : stable I (find_one q).
Proof.
  apply stable_store_call; [apply stable_count_store_op|auto].
Qed.

Lemma stable_users_find_one (oid : option ObjectIdT) :
  stable I (users_find_one oid).
Proof.
  apply stable_store_call; [apply stable_count_store_op|auto].
Qed.

Lemma stable_update_one (q : Value) (t : Z) : stable I (update_one q t).
Proof.
  apply stable_store_call; [apply stable_count_store_op|].
  intros w. apply I_fewer. unfold fewer_sessions. simpl.
  rewrite ids_update_first. repeat split; auto using incl_refl.
Qed.

Lemma stable_delete_one (q : Value) : stable I (delete_one q).
Proof.
  apply stable_store_call; [apply stable_count_store_op|].
  intros w. apply I_fewer. fewer_sessions_tac.
Qed.

Lemma stable_delete_many (t : Z) : stable I (delete_many t).
Proof.
  apply stable_store_call; [apply stable_count_store_op|].
  intros w. apply I_fewer. fewer_sessions_tac.
Qed.

Ltac stable_step :=
  first
    [ apply stable_ret | apply stable_raise | apply stable_lift
    | apply stable_utcnow | apply stable_uuid4_str
    | apply stable_find_one | apply stable_users_find_one
    | apply stable_update_one | apply stable_delete_one
    | apply stable_delete_many
    | apply stable_bind; [|intros ?]
    | match goal with
      | |- stable _ (if ?b then _ else _) => destruct b
      | |- stable _ (match ?x with _ => _ end) => destruct x
      end ].

Ltac stable_handler :=
  let e := fresh "e" in
  let h := fresh "h" in
  let H := fresh "H" in
  intros e h H; destruct e; simpl in H; try discriminate;
  injection H as <-; repeat stable_step.

Variables JWT_SECRET JWT_ALGORITHM : string.

Lemma stable_jwt_decode (t : Token) (key : string) (algs : list string) :
  stable I (jwt_decode t key algs).
Proof. unfold jwt_decode. repeat stable_step. Qed.

Lemma stable_verify_token (t : Token) (kind : string) :
  stable I (verify_token JWT_SECRET JWT_ALGORITHM t kind).
Proof.
  unfold verify_token. apply stable_try_except.
  - repeat first [apply stable_jwt_decode | stable_step].
  - stable_handler.
Qed.

Lemma stable_invalidate_session (q : Value) : stable I (invalidate_session q).
Proof. apply stable_delete_one. Qed.

Lemma stable_get_current_user (request : Request) :
  stable I (get_current_user JWT_SECRET JWT_ALGORITHM request).
Proof.
  unfold get_current_user.
  repeat first [apply stable_verify_token | stable_step].
Qed.

Lemma stable_refresh_token (request : Request) :
  stable I (refresh_token JWT_SECRET JWT_ALGORITHM request).
Proof.
  unfold refresh_token.
  destruct (cookies_get (cookies request) "refresh_token") as [t|];
    [|apply stable_raise].
  destruct (negb (token_truthy t)); [apply stable_raise|].
  apply stable_try_except.
  - repeat first [apply stable_verify_token | stable_step].
  - intros e h [= <-]. apply stable_raise.
Qed.

Lemma stable_logout (request : Request) :
  stable I (logout JWT_SECRET JWT_ALGORITHM request).
Proof.
  unfold logout. apply stable_bind; [|intros ?; apply stable_ret].
  destruct (cookies_get (cookies request) "access_token") as [t|];
    [|apply stable_ret].
  destruct (token_truthy t); [|apply stable_ret].
  apply stable_try_except.
  - repeat first
      [apply stable_jwt_decode | apply stable_invalidate_session | stable_step].
  - stable_handler.
Qed.

Lemma stable_cleanup_expired_sessions_turn :
  stable I cleanup_expired_sessions_turn.
Proof.
  unfold cleanup_expired_sessions_turn. apply stable_try_except.
  - repeat stable_step.
  - intros e h [= <-]. apply stable_ret.
Qed.

(** A call of [create_session_tokens] either leaves the sessions as they
    were or inserts one session under the next UUID. *)
Lemma create_session_tokens_world (user_id email : string)
    (request : Request) (w : World) :
  let w' := snd (create_session_tokens JWT_SECRET JWT_ALGORITHM
                   user_id email request w) in
  fewer_sessions w w' \/ one_more_session w w'.
Proof.
  cbv zeta.
  unfold create_session_tokens, bind, uuid4_str, utcnow, lift, ret, raise,
    insert_one, store_call, jwt_encode.
  cbn [fst snd advance_clock advance_uuid count_store_op set_sessions
       sessions users clock ticks uuid4 uuids store_fault store_ops].
  destruct (ObjectId user_id) as [oid|e]; [|left; fewer_sessions_tac].
  destruct (client_host request) as [host|]; [|left; fewer_sessions_tac].
  cbn [fst snd advance_clock advance_uuid count_store_op set_sessions
       sessions users clock ticks uuid4 uuids store_fault store_ops].
  destruct (store_fault w (store_ops w)); [left; fewer_sessions_tac|].
  right. unfold one_more_session. simpl. rewrite map_app. auto.
Qed.

Lemma stable_create_session_tokens (user_id email : string) (request : Request) :
  stable I (create_session_tokens JWT_SECRET JWT_ALGORITHM user_id email request).
Proof.
  intros w H.
  destruct (create_session_tokens_world user_id email request w) as [Hf|Hi].
  - exact (I_fewer _ _ Hf H).
  - exact (I_insert _ _ Hi H).
Qed.

Lemma stable_run_op (o : Op) (w : World) :
  I w -> I (run_op JWT_SECRET JWT_ALGORITHM o w).
Proof.
  destruct o; simpl.
  - apply stable_create_session_tokens.
  - apply stable_verify_token.
  - apply stable_get_current_user.
  - apply stable_refresh_token.
  - apply stable_logout.
  - apply stable_invalidate_session.
  - apply stable_cleanup_expired_sessions_turn.
Qed.

Lemma stable_run_ops (ops : list Op) (w : World) :
  I w -> I (run_ops JWT_SECRET JWT_ALGORITHM ops w).
Proof.
  unfold run_ops. revert w.
  induction ops as [|o ops IH]; simpl; intros w H; [exact H|].
  apply IH. now apply stable_run_op.
Qed.

End StoreInvariant.

(** *** A revoked id stays revoked *)

Lemma revoked_fewer (id : string) (w w' : World) :
  fewer_sessions w w' -> revoked id w -> revoked id w'.
Proof.
  intros (Hu & Hn & Hincl & _) [Hs Hf]. split.
  - intros Hin. apply Hs. now apply Hincl.
  - intros n Hle. rewrite Hu. apply Hf. lia.
Qed.

Lemma revoked_insert (id : string) (w w' : World) :
  one_more_session w w' -> revoked id w -> revoked id w'.
Proof.
  intros (Hu & Hn & Hids) [Hs Hf]. split.
  - unfold no_session. rewrite Hids, in_app_iff. simpl.
    intros [Hin|[He|[]]]; [now apply Hs|].
    apply (Hf (uuids w)); [lia|exact He].
  - intros n Hle. rewrite Hu. apply Hf. lia.
Qed.

Lemma run_ops_revoked (key alg id : string) (ops : list Op) (w : World) :
  revoked id w -> revoked id (run_ops key alg ops w).
Proof.
  apply stable_run_ops; [apply revoked_fewer|apply revoked_insert].
Qed.

(** Deleting the record of [id] under the unique index revokes [id]. *)
Lemma invalidate_session_revokes (id : string) (w w1 : World) :
  unique_invalidate_ids w -> never_reissued id w ->
  invalidate_session (VStr id) w = (Ok tt, w1) ->
  revoked id w1.
Proof.
  unfold invalidate_session, delete_one, store_call.
  intros Hu Hn. destruct (store_fault w (store_ops w)); [discriminate|].
  intros [= <-]. split; [|exact Hn].
  unfold no_session. simpl. apply no_session_find.
  now apply remove_first_unique.
Qed.

(** A token that carries a revoked id is refused by [verify_token]. *)
Lemma verify_token_revoked (key alg id : string) (t : Token) (kind : string)
    (w : World) :
  no_session id w -> carries t id ->
  exists e, fst (verify_token key alg t kind w) = Raise e
            /\ (store_up w -> exists d, e = HTTPException 401 d).
Proof.
  intros Hs Hc.
  destruct (jwt_decode t key [alg] w) as [[p|e] w1] eqn:Hd.
  - rewrite (verify_token_decoded _ _ _ kind _ _ _ Hd).
    apply jwt_decode_ok in Hd as [-> ->].
    unfold carries in Hc. simpl in Hc. rewrite Hc.
    destruct (negb (value_eqb (dict_get p "type") (VStr kind))); simpl; [eauto|].
    unfold store_up.
    destruct (store_fault w (store_ops w)); simpl.
    + eexists; split; [reflexivity|discriminate].
    + apply no_session_find in Hs. rewrite Hs. simpl. eauto.
  - rewrite (verify_token_decode_error _ _ _ kind _ _ _ Hd). simpl. eauto.
Qed.

(** *** The unique index is kept by the backend itself *)

Lemma well_formed_fewer (w w' : World) :
  fewer_sessions w w' -> well_formed w -> well_formed w'.
Proof.
  intros (Hu & Hn & Hincl & Hnd) (Huniq & Hids & Hinj).
  repeat split.
  - now apply Hnd.
  - intros id Hin. destruct (Hids id (Hincl _ Hin)) as [k [Hk He]].
    exists k. rewrite Hu. split; [lia|exact He].
  - rewrite Hu. exact Hinj.
Qed.

Lemma well_formed_insert (w w' : World) :
  one_more_session w w' -> well_formed w -> well_formed w'.
Proof.
  intros (Hu & Hn & Hnew) (Huniq & Hids & Hinj).
  repeat split.
  - unfold unique_invalidate_ids. rewrite Hnew.
    apply NoDup_app; [exact Huniq|repeat constructor; simpl; tauto|].
    intros id Hin [He|[]].
    destruct (Hids id Hin) as [k [Hk Hk']].
    rewrite <- He in Hk'. apply Hinj in Hk'. lia.
  - intros id. rewrite Hnew, in_app_iff, Hu. simpl.
    intros [Hin|[He|[]]].
    + destruct (Hids id Hin) as [k [Hk He]]. exists k. split; [lia|exact He].
    + exists (uuids w). split; [lia|exact He].
  - rewrite Hu. exact Hinj.
Qed.

(** Whatever the backend does, it keeps the invalidation ids of the stored
    sessions pairwise distinct, provided the UUID generator never repeats. *)
Lemma run_ops_well_formed (key alg : string) (ops : list Op) (w : World) :
  well_formed w -> well_formed (run_ops key alg ops w).
Proof.
  apply stable_run_ops; [apply well_formed_fewer|apply well_formed_insert].
Qed.

Lemma well_formed_empty (w : World) :
  sessions w = [] -> (forall i j, uuid4 w i = uuid4 w j -> i = j) ->
  well_formed w.
Proof.
  intros Hs Hinj. unfold well_formed, unique_invalidate_ids. rewrite Hs.
  repeat split; [constructor| |exact Hinj]. intros id [].
Qed.

(** In such a world the id of a stored session is never issued again. *)
Lemma well_formed_never_reissued (id : string) (w : World) :
  well_formed w -> In id (map sess_invalidate_id (sessions w)) ->
  never_reissued id w.
Proof.
  intros (_ & Hids & Hinj) Hin n Hle He.
  destruct (Hids id Hin) as [k [Hk Hk']].
  rewrite <- He in Hk'. apply Hinj in Hk'. lia.
Qed.

(** ** Revocation *)

(** C1. Once [invalidate_session] has deleted the record of an invalidation
    id, then after any further operations of the backend every token that
    carries this id is refused: [verify_token] (for either token kind) and
    [get_current_user] raise, with HTTP status 401 whenever the store answers
    the session lookup, and the refresh route answers 401; the signature and
    the expiry of the token play no part.  The sessions collection has its
    unique index on [invalidate_id], and the UUID generator does not issue
    the id again. *)
Theorem C1_invalidated_session_is_rejected
    (key alg id : string) (w w1 : World) (ops : list Op)
    (access refresh : Token) (request : Request) :
  unique_invalidate_ids w ->
  never_reissued id w ->
  invalidate_session (VStr id) w = (Ok tt, w1) ->
  cookies_get (cookies request) "access_token" = Some access ->
  carries access id ->
  cookies_get (cookies request) "refresh_token" = Some refresh ->
  carries refresh id ->
  let w2 := run_ops key alg ops w1 in
  (exists e,
      fst (get_current_user key alg request w2) = Raise e
      /\ (store_up w2 -> exists d, e = HTTPException 401 d))
  /\ (exists d,
      fst (refresh_token key alg request w2) = Raise (HTTPException 401 d))
  /\ (forall t kind, carries t id ->
      exists e,
        fst (verify_token key alg t kind w2) = Raise e
        /\ (store_up w2 -> exists d, e = HTTPException 401 d)).
Proof.
  intros Hu Hn Hinv Hca Ha Hcr Hr w2.
  assert (Hrev : revoked id w2).
  { apply run_ops_revoked. eapply invalidate_session_revokes; eauto. }
  destruct Hrev as [Hs _].
  assert (Hv : forall t kind, carries t id -> exists e,
             fst (verify_token key alg t kind w2) = Raise e
             /\ (store_up w2 -> exists d, e = HTTPException 401 d)).
  { intros t kind Hc. now apply verify_token_revoked with (id := id). }
  split; [|split; [|exact Hv]].
  - unfold get_current_user. rewrite Hca.
    destruct (negb (token_truthy access)).
    + eexists; split; [reflexivity|eauto].
    + destruct (Hv access "access" Ha) as [e [He H401]].
      exists e. split; [|exact H401].
      unfold bind.
      destruct (verify_token key alg access "access" w2) as [[p|e'] w3];
        simpl in *; congruence.
  - unfold refresh_token. rewrite Hcr.
    destruct (negb (token_truthy refresh)); [now eexists|].
    destruct (Hv refresh "refresh" Hr) as [e [He _]].
    unfold try_except, bind.
    destruct (verify_token key alg refresh "refresh" w2) as [[p|e'] w3];
      simpl in *; [discriminate|now eexists].
Qed.

Lemma sample_never_reissued (w : World) :
  uuid4 w = Sample.uuid_of -> (1 <= uuids w)%nat -> never_reissued "u" w.
Proof.
  intros Hu Hle n Hn. rewrite Hu.
  destruct n as [|n]; [lia|]. simpl. discriminate.
Qed.

Lemma C1_invalidated_session_is_rejected_witness :
  let w2 :=
    run_ops Sample.secret Sample.algorithm
      [OpSweep; OpCreateSession "0123456789abcdef01234567" "a@x.com" Sample.browser]
      (snd (invalidate_session (VStr "u") Sample.w1)) in
  (exists e,
      fst (get_current_user Sample.secret Sample.algorithm Sample.returning w2)
      = Raise e
      /\ (store_up w2 -> exists d, e = HTTPException 401 d))
  /\ (exists d,
      fst (refresh_token Sample.secret Sample.algorithm Sample.returning w2)
      = Raise (HTTPException 401 d))
  /\ (forall t kind, carries t "u" ->
      exists e,
        fst (verify_token Sample.secret Sample.algorithm t kind w2) = Raise e
        /\ (store_up w2 -> exists d, e = HTTPException 401 d)).
Proof.
  apply (C1_invalidated_session_is_rejected Sample.secret Sample.algorithm "u"
           Sample.w1 (snd (invalidate_session (VStr "u") Sample.w1)) _
           Sample.access1 Sample.refresh1).
  - unfold unique_invalidate_ids. vm_compute. repeat constructor. simpl. tauto.
  - apply sample_never_reissued; vm_compute; [reflexivity|lia].
  - reflexivity.
  - reflexivity.
  - reflexivity.
  - reflexivity.
  - reflexivity.
Defined.

(** C7. [invalidate_session] is idempotent.  While the store answers,
    deleting by an invalidation id raises no error whether or not a record
    has that id; an id that no record has leaves the collection as it was;
    and under the unique index a second call right after the first returns
    the same result and leaves the collection as the first call left it. *)
Theorem C7_invalidate_session_idempotent (q : Value) (w : World) :
  unique_invalidate_ids w ->
  store_fault w (store_ops w) = false ->
  store_fault w (S (store_ops w)) = false ->
  let r1 := invalidate_session q w in
  let r2 := invalidate_session q (snd r1) in
  fst r1 = Ok tt
  /\ fst r2 = Ok tt
  /\ sessions (snd r2) = sessions (snd r1)
  /\ (find (matches q) (sessions w) = None -> sessions (snd r1) = sessions w).
Proof.
  intros Hu H1 H2. unfold invalidate_session, delete_one, store_call.
  rewrite H1. cbn [fst snd count_store_op set_sessions store_fault store_ops sessions].
  rewrite H2. cbn [fst snd count_store_op set_sessions store_fault store_ops sessions].
  repeat split.
  - apply find_none_remove_first. now apply remove_first_unique.
  - apply find_none_remove_first.
Qed.

Lemma C7_invalidate_session_idempotent_witness :
  let r1 := invalidate_session (VStr "u") Sample.w1 in
  let r2 := invalidate_session (VStr "u") (snd r1) in
  fst r1 = Ok tt
  /\ fst r2 = Ok tt
  /\ sessions (snd r2) = sessions (snd r1)
  /\ (find (matches (VStr "u")) (sessions Sample.w1) = None ->
      sessions (snd r1) = sessions Sample.w1).
Proof.
  apply (C7_invalidate_session_idempotent (VStr "u") Sample.w1).
  - unfold unique_invalidate_ids. vm_compute. repeat constructor. simpl. tauto.
  - reflexivity.
  - reflexivity.
Defined.

(** ** Decoding and authentication failures *)



Lemma jwt_decode_valid (key alg : string) (p : Dict) (w : World) :
  time_claims_valid p (clock w (ticks w)) ->
  jwt_decode (Signed alg key p) key [alg] w = (Ok p, advance_clock w).
Proof.
  intros [[Hi Hn] He]. rewrite jwt_decode_signed. cbv zeta.
  now rewrite Hi, Hn, He.
Qed.


(** What an accepted token looks like, and what accepting it does. *)
Lemma verify_token_ok (key alg : string) (t : Token) (kind : string)
    (w w' : World) (p : Dict) :
  verify_token key alg t kind w = (Ok p, w') ->
  t = Signed alg key p
  /\ dict_get p "type" = VStr kind
  /\ (exists s, find (matches (dict_get p "invalidate_id")) (sessions w) = Some s)
  /\ store_fault w (store_ops w) = false
  /\ store_fault w (S (store_ops w)) = false
  /\ w' = set_sessions
            (update_first (matches (dict_get p "invalidate_id"))
               (set_last_used (clock w (S (ticks w)))) (sessions w))
            (count_store_op (advance_clock (count_store_op (advance_clock w)))).
Proof.
  intros H.
  destruct (jwt_decode t key [alg] w) as [[q|e] w1] eqn:Hd.
  - rewrite (verify_token_decoded _ _ _ kind _ _ _ Hd) in H.
    apply jwt_decode_ok in Hd as [-> ->].
    destruct (value_eqb (dict_get q "type") (VStr kind)) eqn:Ht;
      simpl in H; [|discriminate].
    cbn [store_fault store_ops sessions advance_clock clock ticks] in H.
    destruct (store_fault w (store_ops w)); [discriminate|].
    destruct (find (matches (dict_get q "invalidate_id")) (sessions w)) as [s|] eqn:Hf;
      [|discriminate].
    destruct (store_fault w (S (store_ops w))); [discriminate|].
    injection H as -> <-.
    repeat split; eauto.
    destruct (dict_get p "type") as [|s'|]; simpl in Ht; try discriminate.
    apply String.eqb_eq in Ht. now subst.
  - rewrite (verify_token_decode_error _ _ _ kind _ _ _ Hd) in H. discriminate.
Qed.


(** The three refusals of C5 and the acceptance, on Alice's tokens. *)
Example C5_sample_runs :
  fst (verify_token Sample.secret Sample.algorithm Sample.access1 "access"
         Sample.w1_next_day)
  = Raise (HTTPException 401 "Token has expired")
  /\ fst (verify_token Sample.secret Sample.algorithm Sample.forged "access"
            Sample.w1)
     = Raise (HTTPException 401 "Invalid token")
  /\ fst (verify_token Sample.secret Sample.algorithm Sample.access1 "refresh"
            Sample.w1)
     = Raise (HTTPException 401 "Invalid token type")
  /\ fst (verify_token Sample.secret Sample.algorithm Sample.refresh1 "access"
            Sample.w1)
     = Raise (HTTPException 401 "Invalid token type")
  /\ fst (verify_token Sample.secret Sample.algorithm Sample.access1 "access"
            Sample.w1)
     = Ok (token_claims Sample.access1).
Proof. repeat split; reflexivity. Qed.

(** C2, as stated, fails: four refusals of [get_current_user], one per
    failing check, are four different results for the caller. *)
Lemma C2_failures_are_distinguishable :
  let expired :=
    fst (get_current_user Sample.secret Sample.algorithm
           Sample.returning Sample.w1_next_day) in
  let bad_signature :=
    fst (get_current_user Sample.secret Sample.algorithm
           (Sample.with_cookie "access_token" Sample.forged) Sample.w1) in
  let wrong_kind :=
    fst (get_current_user Sample.secret Sample.algorithm
           (Sample.with_cookie "access_token" Sample.refresh1) Sample.w1) in
  let revoked_session :=
    fst (get_current_user Sample.secret Sample.algorithm
           Sample.returning Sample.w1_logged_out) in
  expired = Raise (HTTPException 401 "Token has expired")
  /\ bad_signature = Raise (HTTPException 401 "Invalid token")
  /\ wrong_kind = Raise (HTTPException 401 "Invalid token type")
  /\ revoked_session = Raise (HTTPException 401 "Invalid session")
  /\ expired <> bad_signature
  /\ expired <> revoked_session
  /\ bad_signature <> wrong_kind
  /\ wrong_kind <> revoked_session.
Proof.
  cbv zeta. repeat split; try reflexivity; vm_compute; discriminate.
Qed.

(** C2, amended.  Whatever makes [get_current_user] refuse a request, short
    of a failure of the store itself, the caller gets an [HTTPException] with
    status 401; its detail is one of five messages and names the check that
    failed. *)
Theorem C2_refusals_share_status_401 (key alg : string) (request : Request)
    (w : World) :
  match fst (get_current_user key alg request w) with
  | Ok _ => True
  | Raise e =>
      e = PyMongoError
      \/ exists d, e = HTTPException 401 d
                   /\ In d [ "Not authenticated"; "Token has expired";
                             "Invalid token"; "Invalid token type";
                             "Invalid session" ]
  end.
Proof.
  unfold get_current_user.
  destruct (cookies_get (cookies request) "access_token") as [t|];
    [|simpl; right; eexists; split; [reflexivity|simpl; tauto]].
  destruct (negb (token_truthy t));
    [simpl; right; eexists; split; [reflexivity|simpl; tauto]|].
  unfold bind.
  destruct (jwt_decode t key [alg] w) as [[q|e] w1] eqn:Hd.
  - rewrite (verify_token_decoded _ _ _ "access" _ _ _ Hd).
    repeat match goal with
           | |- context [if ?b then _ else _] => destruct b
           | |- context [match find ?f ?l with _ => _ end] => destruct (find f l)
           end; cbn [fst ret];
      first [ exact I | now left
            | right; eexists; split; [reflexivity|simpl; tauto] ].
  - rewrite (verify_token_decode_error _ _ _ "access" _ _ _ Hd).
    cbn [fst]. right. eexists. split; [reflexivity|].
    destruct e; simpl; tauto.
Qed.

(** ** The last-used touch *)

(** C6, as stated, fails: Alice's access token decodes as kind access and
    her session record exists, yet when the store fails the [update_one] of
    [last_used] the request is not authenticated; the store's exception
    reaches the caller.  With a healthy store the same request returns her
    subject. *)
Lemma C6_touch_failure_blocks_authentication :
  fst (jwt_decode Sample.access1 Sample.secret [Sample.algorithm]
         Sample.w1_touch_fails)
  = Ok (token_claims Sample.access1)
  /\ dict_get (token_claims Sample.access1) "type" = VStr "access"
  /\ (exists s, find (matches (VStr "u")) (sessions Sample.w1_touch_fails) = Some s)
  /\ fst (get_current_user Sample.secret Sample.algorithm Sample.returning
            Sample.w1_touch_fails)
     = Raise PyMongoError
  /\ fst (get_current_user Sample.secret Sample.algorithm Sample.returning
            Sample.w1)
     = Ok (VStr "a@x.com").
Proof.
  repeat split; try reflexivity. eexists. reflexivity.
Qed.

(** C6, amended.  For a request whose access token decodes as kind access
    and whose session record is found, [get_current_user] returns the token's
    subject when the [update_one] of [last_used] goes through, and raises the
    store's [PyMongoError] when that update fails: the touch is part of
    authentication, not a best-effort extra. *)
Theorem C6_touch_is_not_best_effort (key alg : string) (request : Request)
    (t : Token) (p : Dict) (s : Session) (w : World) :
  cookies_get (cookies request) "access_token" = Some t ->
  token_truthy t = true ->
  fst (jwt_decode t key [alg] w) = Ok p ->
  dict_get p "type" = VStr "access" ->
  store_up w ->
  find (matches (dict_get p "invalidate_id")) (sessions w) = Some s ->
  fst (get_current_user key alg request w)
  = if store_fault w (S (store_ops w))
    then Raise PyMongoError
    else Ok (dict_get p "sub").
Proof.
  intros Hck Htr Hd Hty Hup Hf.
  unfold get_current_user. rewrite Hck, Htr. cbn [negb].
  destruct (jwt_decode t key [alg] w) as [r w1] eqn:Hj.
  simpl in Hd. subst r.
  unfold bind. rewrite (verify_token_decoded _ _ _ "access" _ _ _ Hj).
  apply jwt_decode_ok in Hj as [-> ->].
  rewrite Hty. cbn [value_eqb]. rewrite String.eqb_refl. cbn [negb].
  cbn [store_fault store_ops sessions advance_clock].
  unfold store_up in Hup. rewrite Hup, Hf. cbv zeta.
  destruct (store_fault w (S (store_ops w))); reflexivity.
Qed.

Lemma C6_touch_is_not_best_effort_witness :
  fst (get_current_user Sample.secret Sample.algorithm Sample.returning
         Sample.w1_touch_fails)
  = if store_fault Sample.w1_touch_fails (S (store_ops Sample.w1_touch_fails))
    then Raise PyMongoError
    else Ok (dict_get (token_claims Sample.access1) "sub").
Proof.
  apply (C6_touch_is_not_best_effort Sample.secret Sample.algorithm
           Sample.returning Sample.access1 (token_claims Sample.access1)
           (mkSession "u" "0123456789abcdef01234567" 1004 2593003 1005 true
                      "203.0.113.7" (Some "Mozilla/5.0"))).
  - reflexivity.
  - reflexivity.
  - reflexivity.
  - reflexivity.
  - reflexivity.
  - reflexivity.
Defined.

(** ** Session creation *)

(** The run of [create_session_tokens], outcome by outcome. *)
Lemma create_session_tokens_run (key alg user_id email : string)
    (request : Request) (w : World) :
  let r := create_session_tokens key alg user_id email request w in
  let invalidate_id := uuid4 w (uuids w) in
  let access_token :=
    Signed alg key
      [ ("user_id", VStr user_id); ("sub", VStr email);
        ("exp", VTime (reading w 0 + timedelta_hours_1));
        ("type", VStr "access"); ("invalidate_id", VStr invalidate_id);
        ("jti", VStr (uuid4 w (S (uuids w))));
        ("iat", VTime (reading w 1)); ("nbf", VTime (reading w 2)) ] in
  let refresh_token :=
    Signed alg key
      [ ("user_id", VStr user_id);
        ("exp", VTime (reading w 3 + timedelta_days_30));
        ("type", VStr "refresh"); ("invalidate_id", VStr invalidate_id) ] in
  match ObjectId user_id, client_host request with
  | Raise e, _ => fst r = Raise e /\ sessions (snd r) = sessions w
  | Ok _, None => fst r = Raise AttributeError /\ sessions (snd r) = sessions w
  | Ok oid, Some host =>
      if store_fault w (store_ops w)
      then fst r = Raise PyMongoError /\ sessions (snd r) = sessions w
      else
        fst r = Ok (access_token, refresh_token)
        /\ sessions (snd r)
           = (sessions w
              ++ [ mkSession invalidate_id oid (reading w 4)
                     (reading w 3 + timedelta_days_30) (reading w 5) true host
                     (parse_user_agent (header_user_agent request)) ])%list
        /\ ticks (snd r) = (ticks w + 6)%nat
  end.
Proof.
  cbv zeta. unfold reading.
  rewrite !Nat.add_succ_r, !Nat.add_0_r.
  unfold create_session_tokens, bind, uuid4_str, utcnow, lift, ret, raise,
    insert_one, store_call, jwt_encode.
  cbn [fst snd advance_clock advance_uuid count_store_op set_sessions
       sessions users clock ticks uuid4 uuids store_fault store_ops].
  destruct (ObjectId user_id) as [oid|e]; [|split; reflexivity].
  destruct (client_host request) as [host|]; [|split; reflexivity].
  cbn [fst snd advance_clock advance_uuid count_store_op set_sessions
       sessions users clock ticks uuid4 uuids store_fault store_ops].
  destruct (store_fault w (store_ops w)); repeat split; reflexivity.
Qed.

(** C3. [create_session_tokens] is all or nothing for its caller: either it
    returns both tokens, signed by the server, and the sessions collection
    has grown by exactly one record; or it raises ([InvalidId] for a user id
    that is no ObjectId, [AttributeError] for a request without client, the
    store's [PyMongoError] when the insert fails), returns no token and
    leaves the sessions collection as it was. *)
Theorem C3_create_session_all_or_nothing (key alg user_id email : string)
    (request : Request) (w : World) :
  let r := create_session_tokens key alg user_id email request w in
  match fst r with
  | Ok (access_token, refresh_token) =>
      (exists claims, access_token = Signed alg key claims
                      /\ dict_get claims "type" = VStr "access")
      /\ (exists claims, refresh_token = Signed alg key claims
                         /\ dict_get claims "type" = VStr "refresh")
      /\ exists doc, sessions (snd r) = (sessions w ++ [doc])%list
  | Raise e =>
      (e = InvalidId \/ e = AttributeError \/ e = PyMongoError)
      /\ sessions (snd r) = sessions w
  end.
Proof.
  cbv zeta.
  pose proof (create_session_tokens_run key alg user_id email request w) as H.
  cbv zeta in H.
  destruct (ObjectId user_id) as [oid|e] eqn:Ho.
  - destruct (client_host request) as [host|].
    + destruct (store_fault w (store_ops w)).
      * destruct H as [-> ->]. auto.
      * destruct H as [-> [-> _]]. repeat split; eauto.
    + destruct H as [-> ->]. auto.
  - destruct H as [-> ->]. split; [|reflexivity].
    unfold ObjectId in Ho.
    destruct (_ && _)%bool; [discriminate|]. injection Ho as <-. auto.
Qed.

(** Both outcomes of C3 occur: a login against a healthy store, and the same
    login while the store is down. *)
Example C3_sample_runs :
  fst (Sample.login Sample.w0) = Ok (Sample.access1, Sample.refresh1)
  /\ List.length (sessions (snd (Sample.login Sample.w0))) = 1%nat
  /\ fst (Sample.login Sample.w0_store_down) = Raise PyMongoError
  /\ sessions (snd (Sample.login Sample.w0_store_down)) = [].
Proof. repeat split; reflexivity. Qed.

(** A successful [create_session_tokens], spelled out. *)
Lemma create_session_tokens_ok (key alg user_id email : string)
    (request : Request) (w w' : World) (access_token refresh_token : Token) :
  create_session_tokens key alg user_id email request w
  = (Ok (access_token, refresh_token), w') ->
  exists oid host,
    access_token =
      Signed alg key
        [ ("user_id", VStr user_id); ("sub", VStr email);
          ("exp", VTime (reading w 0 + timedelta_hours_1));
          ("type", VStr "access"); ("invalidate_id", VStr (uuid4 w (uuids w)));
          ("jti", VStr (uuid4 w (S (uuids w))));
          ("iat", VTime (reading w 1)); ("nbf", VTime (reading w 2)) ]
    /\ refresh_token =
      Signed alg key
        [ ("user_id", VStr user_id);
          ("exp", VTime (reading w 3 + timedelta_days_30));
          ("type", VStr "refresh"); ("invalidate_id", VStr (uuid4 w (uuids w))) ]
    /\ sessions w'
       = (sessions w
          ++ [ mkSession (uuid4 w (uuids w)) oid (reading w 4)
                 (reading w 3 + timedelta_days_30) (reading w 5) true host
                 (parse_user_agent (header_user_agent request)) ])%list
    /\ ticks w' = (ticks w + 6)%nat.
Proof.
  intros H.
  pose proof (create_session_tokens_run key alg user_id email request w) as R.
  cbv zeta in R. rewrite H in R. cbn [fst snd] in R.
  destruct (ObjectId user_id) as [oid|e]; [|destruct R; discriminate].
  destruct (client_host request) as [host|]; [|destruct R; discriminate].
  destruct (store_fault w (store_ops w)); [destruct R; discriminate|].
  destruct R as [[= -> ->] [-> ->]]. exists oid, host. auto.
Qed.

(** A successful [POST /sessions/refresh], spelled out: the presented
    refresh token was accepted by [verify_token], the user it names is still
    registered, and the cookies carry a new access token next to the
    presented refresh token. *)
Lemma refresh_token_ok (key alg : string) (request : Request) (w w' : World)
    (cookies_set : list CookieOp) :
  refresh_token key alg request w = (Ok cookies_set, w') ->
  exists presented payload user s,
    cookies_get (cookies request) "refresh_token" = Some presented
    /\ presented = Signed alg key payload
    /\ dict_get payload "type" = VStr "refresh"
    /\ find (matches (dict_get payload "invalidate_id")) (sessions w) = Some s
    /\ In user (users w)
    /\ cookies_set =
       set_auth_cookies
         (Signed alg key
            [ ("user_id", VStr (user__id user));
              ("sub", VStr (user_email user));
              ("exp", VTime (reading w 2 + timedelta_hours_1));
              ("type", VStr "access");
              ("invalidate_id", dict_get payload "invalidate_id") ])
         presented.
Proof.
  unfold refresh_token.
  destruct (cookies_get (cookies request) "refresh_token") as [t|];
    [|discriminate].
  destruct (negb (token_truthy t)); [discriminate|].
  unfold try_except, bind at 1.
  destruct (verify_token key alg t "refresh" w) as [[p|e] w1] eqn:Hv;
    [|discriminate].
  apply verify_token_ok in Hv as (-> & Hty & [s Hs] & _ & _ & ->).
  unfold bind, lift, users_find_one, store_call, utcnow, ret, raise, jwt_encode.
  destruct (ObjectId_of_value (dict_get p "user_id")) as [oid|e];
    [|discriminate].
  cbn [fst snd advance_clock count_store_op set_sessions
       sessions users clock ticks uuid4 uuids store_fault store_ops].
  destruct (store_fault w (S (S (store_ops w)))); [discriminate|].
  destruct oid as [i|]; [|discriminate].
  destruct (find (fun u => String.eqb (user__id u) i) (users w)) as [u|] eqn:Hu;
    [|discriminate].
  intros [= <- _].
  exists (Signed alg key p), p, u, s.
  apply find_some in Hu as [Hin _].
  unfold reading. rewrite !Nat.add_succ_r, Nat.add_0_r.
  repeat split; auto.
Qed.

Lemma matches_found (q : Value) (l : list Session) (s : Session) :
  find (matches q) l = Some s -> q = VStr (sess_invalidate_id s).
Proof.
  intros H. apply find_some in H as [_ H].
  unfold matches in H. destruct q as [|i|]; simpl in H; try discriminate.
  apply String.eqb_eq in H. now subst.
Qed.

(** ** Claims and timestamps of the issued tokens *)









(** ** Refreshing the access token *)

(** C4, as stated, fails: two successive refreshes with the same refresh
    token, both within the same second of the clock, set the very same
    access token; its [exp], a NumericDate in whole seconds, is the same
    both times. *)
Lemma C4_two_refreshes_same_expiry :
  let first := refresh_token Sample.secret Sample.algorithm
                 Sample.returning_still Sample.w1_still in
  let second := refresh_token Sample.secret Sample.algorithm
                  Sample.returning_still (snd first) in
  let minted :=
    Signed Sample.algorithm Sample.secret
      [ ("user_id", VStr "0123456789abcdef01234567"); ("sub", VStr "a@x.com");
        ("exp", VTime 4600); ("type", VStr "access");
        ("invalidate_id", VStr "u") ] in
  fst first = Ok (set_auth_cookies minted Sample.refresh1_still)
  /\ fst second = Ok (set_auth_cookies minted Sample.refresh1_still).
Proof. cbv zeta. split; vm_compute; reflexivity. Qed.

(** C4, amended.  A successful refresh leaves the refresh token as it was
    presented and mints an access token with the invalidation id of that
    refresh token and an expiry one hour after the clock reading taken at
    minting.  Hence two refreshes against the same refresh token yield access
    tokens with the same invalidation id, and their expiries differ exactly
    when the two readings do. *)
Theorem C4_refresh_keeps_invalidate_id
    (key alg : string) (request : Request) (presented : Token)
    (w w' v v' : World) (first second : list CookieOp) :
  cookies_get (cookies request) "refresh_token" = Some presented ->
  refresh_token key alg request w = (Ok first, w') ->
  refresh_token key alg request v = (Ok second, v') ->
  exists claims1 claims2 id,
    first = set_auth_cookies (Signed alg key claims1) presented
    /\ second = set_auth_cookies (Signed alg key claims2) presented
    /\ carries presented id
    /\ dict_get claims1 "type" = VStr "access"
    /\ dict_get claims2 "type" = VStr "access"
    /\ dict_get claims1 "invalidate_id" = VStr id
    /\ dict_get claims2 "invalidate_id" = VStr id
    /\ dict_get claims1 "exp" = VTime (reading w 2 + 3600)
    /\ dict_get claims2 "exp" = VTime (reading v 2 + 3600)
    /\ (dict_get claims1 "exp" = dict_get claims2 "exp"
        <-> reading w 2 = reading v 2).
Proof.
  intros Hck H1 H2.
  apply refresh_token_ok in H1
    as (t1 & p1 & u1 & s1 & Hc1 & -> & _ & Hs1 & _ & ->).
  apply refresh_token_ok in H2
    as (t2 & p2 & u2 & s2 & Hc2 & -> & _ & Hs2 & _ & ->).
  rewrite Hck in Hc1, Hc2. injection Hc1 as ->. injection Hc2 as <-.
  apply matches_found in Hs1. clear Hs2.
  do 2 eexists. exists (sess_invalidate_id s1).
  repeat split; try reflexivity; try exact Hs1.
  - cbn [dict_get String.eqb Ascii.eqb Bool.eqb]. unfold timedelta_hours_1.
    intros [= E]. lia.
  - cbn [dict_get String.eqb Ascii.eqb Bool.eqb]. intros ->. reflexivity.
Qed.

Lemma C4_refresh_keeps_invalidate_id_witness :
  exists claims1 claims2 id,
    Sample.cookies_of (fst Sample.refreshed)
    = set_auth_cookies (Signed Sample.algorithm Sample.secret claims1)
        Sample.refresh1
    /\ Sample.cookies_of
         (fst (refresh_token Sample.secret Sample.algorithm Sample.returning
                 (snd Sample.refreshed)))
       = set_auth_cookies (Signed Sample.algorithm Sample.secret claims2)
           Sample.refresh1
    /\ carries Sample.refresh1 id
    /\ dict_get claims1 "type" = VStr "access"
    /\ dict_get claims2 "type" = VStr "access"
    /\ dict_get claims1 "invalidate_id" = VStr id
    /\ dict_get claims2 "invalidate_id" = VStr id
    /\ dict_get claims1 "exp" = VTime (reading Sample.w1 2 + 3600)
    /\ dict_get claims2 "exp" = VTime (reading (snd Sample.refreshed) 2 + 3600)
    /\ (dict_get claims1 "exp" = dict_get claims2 "exp"
        <-> reading Sample.w1 2 = reading (snd Sample.refreshed) 2).
Proof.
  apply (C4_refresh_keeps_invalidate_id Sample.secret Sample.algorithm
           Sample.returning Sample.refresh1
           Sample.w1 (snd Sample.refreshed)
           (snd Sample.refreshed)
           (snd (refresh_token Sample.secret Sample.algorithm Sample.returning
                   (snd Sample.refreshed)))).
  - vm_compute. reflexivity.
  - vm_compute. reflexivity.
  - vm_compute. reflexivity.
Defined.

(** ** Round trips: log in, authenticate, refresh *)

Lemma session_found (id : string) (l : list Session) :
  In id (map sess_invalidate_id l) ->
  exists s, find (matches (VStr id)) l = Some s.
Proof.
  intros Hin. destruct (find (matches (VStr id)) l) as [s|] eqn:Hf; [eauto|].
  apply no_session_find in Hf. contradiction.
Qed.

(** When [get_current_user] lets a request through. *)
Lemma get_current_user_accepts (key alg : string) (request : Request)
    (p : Dict) (id : string) (w : World) :
  cookies_get (cookies request) "access_token" = Some (Signed alg key p) ->
  time_claims_valid p (reading w 0) ->
  dict_get p "type" = VStr "access" ->
  dict_get p "invalidate_id" = VStr id ->
  In id (map sess_invalidate_id (sessions w)) ->
  store_fault w (store_ops w) = false ->
  store_fault w (S (store_ops w)) = false ->
  fst (get_current_user key alg request w) = Ok (dict_get p "sub").
Proof.
  intros Hck Hv Hty Hid Hin H1 H2.
  unfold reading in Hv. rewrite Nat.add_0_r in Hv.
  unfold get_current_user. rewrite Hck. cbn [token_truthy negb].
  unfold bind.
  rewrite (verify_token_decoded _ _ _ "access" _ _ _ (jwt_decode_valid _ _ _ _ Hv)).
  rewrite Hty, Hid. cbn [value_eqb]. rewrite String.eqb_refl. cbn [negb].
  cbn [store_fault store_ops sessions advance_clock].
  destruct (session_found id (sessions w) Hin) as [s Hs].
  rewrite H1, Hs. cbv zeta. rewrite H2. reflexivity.
Qed.

(** X1. Login, then authenticate.  The access token returned by
    [create_session_tokens] is accepted by [get_current_user], which returns
    the e-mail address the session was created for, in every world where a
    session record with the token's invalidation id exists, the clock is not
    behind the token's [iat] and [nbf] and has not reached its [exp], and the
    store answers the lookup and the touch. *)
Theorem X1_login_then_authenticate
    (key alg user_id email : string) (request request' : Request)
    (w w' v : World) (access refresh : Token) :
  create_session_tokens key alg user_id email request w
  = (Ok (access, refresh), w') ->
  cookies_get (cookies request') "access_token" = Some access ->
  In (uuid4 w (uuids w)) (map sess_invalidate_id (sessions v)) ->
  reading w 1 <= reading v 0 ->
  reading w 2 <= reading v 0 ->
  reading v 0 < reading w 0 + 3600 ->
  store_fault v (store_ops v) = false ->
  store_fault v (S (store_ops v)) = false ->
  fst (get_current_user key alg request' v) = Ok (VStr email).
Proof.
  intros Hc Hck Hin Hiat Hnbf Hexp H1 H2.
  apply create_session_tokens_ok in Hc as (oid & host & -> & _ & _ & _).
  erewrite get_current_user_accepts; eauto; try reflexivity.
  unfold time_claims_valid, not_immature, validate_time_claim.
  cbn [dict_has dict_get String.eqb Ascii.eqb Bool.eqb orb].
  unfold timedelta_hours_1.
  repeat split.
  - destruct (reading v 0 <? reading w 1) eqn:E; [lia|reflexivity].
  - destruct (reading v 0 <? reading w 2) eqn:E; [lia|reflexivity].
  - destruct (reading w 0 + 3600 <=? reading v 0) eqn:E; [lia|reflexivity].
Qed.

Lemma X1_login_then_authenticate_witness :
  fst (get_current_user Sample.secret Sample.algorithm Sample.returning Sample.w1)
  = Ok (VStr "a@x.com").
Proof.
  apply (X1_login_then_authenticate Sample.secret Sample.algorithm
           "0123456789abcdef01234567" "a@x.com" Sample.browser Sample.returning
           Sample.w0 Sample.w1 Sample.w1 Sample.access1 Sample.refresh1).
  - vm_compute. reflexivity.
  - reflexivity.
  - vm_compute. tauto.
  - vm_compute. discriminate.
  - vm_compute. discriminate.
  - vm_compute. reflexivity.
  - reflexivity.
  - reflexivity.
Defined.

(** When the refresh route lets a request through, and what it sets. *)
Lemma refresh_token_accepts (key alg : string) (request : Request)
    (p : Dict) (id : string) (oid : ObjectIdT) (u : User) (w : World) :
  cookies_get (cookies request) "refresh_token" = Some (Signed alg key p) ->
  time_claims_valid p (reading w 0) ->
  dict_get p "type" = VStr "refresh" ->
  dict_get p "invalidate_id" = VStr id ->
  In id (map sess_invalidate_id (sessions w)) ->
  ObjectId_of_value (dict_get p "user_id") = Ok (Some oid) ->
  find (fun x => String.eqb (user__id x) oid) (users w) = Some u ->
  store_fault w (store_ops w) = false ->
  store_fault w (S (store_ops w)) = false ->
  store_fault w (S (S (store_ops w))) = false ->
  fst (refresh_token key alg request w)
  = Ok (set_auth_cookies
          (Signed alg key
             [ ("user_id", VStr (user__id u)); ("sub", VStr (user_email u));
               ("exp", VTime (reading w 2 + 3600)); ("type", VStr "access");
               ("invalidate_id", VStr id) ])
          (Signed alg key p)).
Proof.
  intros Hck Hv Hty Hid Hin Hoid Hu H1 H2 H3.
  unfold reading in *. rewrite Nat.add_0_r in Hv.
  rewrite !Nat.add_succ_r, Nat.add_0_r.
  unfold refresh_token. rewrite Hck. cbn [token_truthy negb].
  unfold try_except, bind at 1.
  rewrite (verify_token_decoded _ _ _ "refresh" _ _ _ (jwt_decode_valid _ _ _ _ Hv)).
  rewrite Hty, Hid. cbn [value_eqb]. rewrite String.eqb_refl. cbn [negb].
  cbn [store_fault store_ops sessions advance_clock].
  destruct (session_found id (sessions w) Hin) as [s Hs].
  rewrite H1, Hs. cbv zeta. rewrite H2.
  unfold bind, lift, users_find_one, store_call, utcnow, ret, raise, jwt_encode.
  rewrite Hoid.
  cbn [fst snd advance_clock count_store_op set_sessions
       sessions users clock ticks uuid4 uuids store_fault store_ops].
  rewrite H3, Hu.
  cbn [fst snd advance_clock count_store_op set_sessions
       sessions users clock ticks uuid4 uuids store_fault store_ops].
  rewrite Hid. reflexivity.
Qed.

Lemma create_session_tokens_oid (key alg user_id email : string)
    (request : Request) (w w' : World) (access refresh : Token) :
  create_session_tokens key alg user_id email request w
  = (Ok (access, refresh), w') ->
  ObjectId user_id = Ok (map_string lower_hex user_id).
Proof.
  intros H.
  pose proof (create_session_tokens_run key alg user_id email request w) as R.
  cbv zeta in R. rewrite H in R. cbn [fst snd] in R.
  unfold ObjectId in *.
  destruct (_ && _)%bool; [reflexivity|destruct R; discriminate].
Qed.

(** X2. Login, then refresh.  The refresh token returned by
    [create_session_tokens] is accepted by the refresh route in every world
    where a session record with its invalidation id exists, the clock has not
    reached its thirty-day expiry, the user it was issued to is still
    registered and the store answers the three calls.  The route then sets the
    presented refresh token again, next to an access token for the same
    invalidation id whose subject is the e-mail address the user has now,
    whatever it was at login. *)
Theorem X2_login_then_refresh
    (key alg user_id email : string) (request request' : Request)
    (w w' v : World) (access refresh : Token) (u : User) :
  create_session_tokens key alg user_id email request w
  = (Ok (access, refresh), w') ->
  cookies_get (cookies request') "refresh_token" = Some refresh ->
  In (uuid4 w (uuids w)) (map sess_invalidate_id (sessions v)) ->
  reading v 0 < reading w 3 + 2592000 ->
  find (fun x => String.eqb (user__id x) (map_string lower_hex user_id)) (users v)
  = Some u ->
  store_fault v (store_ops v) = false ->
  store_fault v (S (store_ops v)) = false ->
  store_fault v (S (S (store_ops v))) = false ->
  fst (refresh_token key alg request' v)
  = Ok (set_auth_cookies
          (Signed alg key
             [ ("user_id", VStr (user__id u)); ("sub", VStr (user_email u));
               ("exp", VTime (reading v 2 + 3600)); ("type", VStr "access");
               ("invalidate_id", VStr (uuid4 w (uuids w))) ])
          refresh).
Proof.
  intros Hc Hck Hin Hexp Hu H1 H2 H3.
  pose proof (create_session_tokens_oid _ _ _ _ _ _ _ _ _ Hc) as Hoid.
  apply create_session_tokens_ok in Hc as (oid & host & _ & -> & _ & _).
  eapply refresh_token_accepts; eauto; try reflexivity.
  - unfold time_claims_valid, not_immature, validate_time_claim.
    cbn [dict_has dict_get String.eqb Ascii.eqb Bool.eqb orb].
    unfold timedelta_days_30.
    repeat split.
    destruct (reading w 3 + 2592000 <=? reading v 0) eqn:E; [lia|reflexivity].
  - cbn [dict_get String.eqb Ascii.eqb Bool.eqb ObjectId_of_value].
    now rewrite Hoid.
Qed.

Lemma X2_login_then_refresh_witness :
  fst (refresh_token Sample.secret Sample.algorithm Sample.returning
         Scenario.w1_alice_moved)
  = Ok (set_auth_cookies
          (Signed Sample.algorithm Sample.secret
             [ ("user_id", VStr "0123456789abcdef01234567");
               ("sub", VStr "alice@y.org");
               ("exp", VTime (reading Scenario.w1_alice_moved 2 + 3600));
               ("type", VStr "access");
               ("invalidate_id", VStr (uuid4 Sample.w0 (uuids Sample.w0))) ])
          Sample.refresh1).
Proof.
  apply (X2_login_then_refresh Sample.secret Sample.algorithm
           "0123456789abcdef01234567" "a@x.com" Sample.browser Sample.returning
           Sample.w0 Sample.w1 Scenario.w1_alice_moved
           Sample.access1 Sample.refresh1
           (mkUser "0123456789abcdef01234567" "alice@y.org")).
  - vm_compute. reflexivity.
  - reflexivity.
  - vm_compute. tauto.
  - vm_compute. reflexivity.
  - vm_compute. reflexivity.
  - reflexivity.
  - reflexivity.
  - reflexivity.
Defined.

(** X3. Refresh, then authenticate.  The access token set by a successful
    refresh is accepted by [get_current_user] in every world where the
    session record of its invalidation id exists, the clock has not reached
    one hour after the reading taken at minting and the store answers; the
    subject returned is the e-mail address of a user registered when the
    token was minted. *)
Theorem X3_refresh_then_authenticate
    (key alg : string) (request request' : Request) (v v' u : World)
    (cookies_set : list CookieOp) (minted presented : Token) :
  refresh_token key alg request v = (Ok cookies_set, v') ->
  cookies_set = set_auth_cookies minted presented ->
  cookies_get (cookies request') "access_token" = Some minted ->
  (forall id, carries minted id -> In id (map sess_invalidate_id (sessions u))) ->
  reading u 0 < reading v 2 + 3600 ->
  store_fault u (store_ops u) = false ->
  store_fault u (S (store_ops u)) = false ->
  exists usr,
    In usr (users v)
    /\ fst (get_current_user key alg request' u) = Ok (VStr (user_email usr)).
Proof.
  intros Hr Hset Hck Hin Hexp H1 H2.
  apply refresh_token_ok in Hr
    as (t & p & usr & s & _ & _ & _ & Hs & Hu & Hcookies).
  rewrite Hcookies in Hset. injection Hset as <- _.
  apply matches_found in Hs. rewrite Hs in *.
  exists usr. split; [exact Hu|].
  erewrite get_current_user_accepts; eauto; try reflexivity.
  - unfold time_claims_valid, not_immature, validate_time_claim.
    cbn [dict_has dict_get String.eqb Ascii.eqb Bool.eqb orb].
    unfold timedelta_hours_1.
    repeat split.
    destruct (reading v 2 + 3600 <=? reading u 0) eqn:E; [lia|reflexivity].
  - apply Hin. reflexivity.
Qed.

Lemma X3_refresh_then_authenticate_witness :
  exists usr,
    In usr (users Sample.w1)
    /\ fst (get_current_user Sample.secret Sample.algorithm
              Scenario.returning_refreshed (snd Sample.refreshed))
       = Ok (VStr (user_email usr)).
Proof.
  apply (X3_refresh_then_authenticate Sample.secret Sample.algorithm
           Sample.returning Scenario.returning_refreshed
           Sample.w1 (snd Sample.refreshed) (snd Sample.refreshed)
           (Sample.cookies_of (fst Sample.refreshed))
           Scenario.refreshed_access Sample.refresh1).
  - vm_compute. reflexivity.
  - vm_compute. reflexivity.
  - reflexivity.
  - intros id Hc. vm_compute in Hc. injection Hc as <-. vm_compute. tauto.
  - vm_compute. reflexivity.
  - reflexivity.
  - reflexivity.
Defined.

(** ** Logout *)

(** X4. Logout revokes.  When the access cookie holds any token that
    [jwt.decode] accepts (its [type] is not looked at) and that carries a
    non-empty invalidation id, and the store answers, [logout] deletes the
    session record, clears both cookies, and under the unique index the same
    request is no longer authenticated afterwards: [get_current_user] raises,
    with HTTP status 401 whenever the store answers its lookup. *)
Theorem X4_logout_revokes
    (key alg id : string) (request : Request) (t : Token) (p : Dict) (w : World) :
  cookies_get (cookies request) "access_token" = Some t ->
  fst (jwt_decode t key [alg] w) = Ok p ->
  dict_get p "invalidate_id" = VStr id ->
  id <> "" ->
  unique_invalidate_ids w ->
  store_up w ->
  let r := logout key alg request w in
  fst r = Ok clear_auth_cookies
  /\ no_session id (snd r)
  /\ exists e,
       fst (get_current_user key alg request (snd r)) = Raise e
       /\ (store_up (snd r) -> exists d, e = HTTPException 401 d).
Proof.
  intros Hck Hd Hid Hne Hu Hup. cbv zeta.
  destruct (jwt_decode t key [alg] w) as [r1 w1] eqn:Hj. simpl in Hd. subst r1.
  pose proof (jwt_decode_ok _ _ _ _ _ _ Hj) as [-> ->].
  assert (Hrun : logout key alg request w
                 = (Ok clear_auth_cookies,
                    set_sessions (remove_first (matches (VStr id)) (sessions w))
                      (count_store_op (advance_clock w)))).
  { unfold logout, bind at 1. rewrite Hck. cbn [token_truthy].
    unfold try_except, bind. rewrite Hj, Hid.
    assert (Ht : truthy (VStr id) = true).
    { simpl. destruct (String.eqb id "") eqn:E; [|reflexivity].
      apply String.eqb_eq in E. contradiction. }
    rewrite Ht. unfold invalidate_session, delete_one, store_call.
    cbn [store_fault store_ops advance_clock]. unfold store_up in Hup.
    rewrite Hup. reflexivity. }
  rewrite Hrun. cbn [fst snd].
  assert (Hno : no_session id
                  (set_sessions (remove_first (matches (VStr id)) (sessions w))
                     (count_store_op (advance_clock w)))).
  { unfold no_session. simpl. apply no_session_find.
    now apply remove_first_unique. }
  repeat split; [exact Hno|].
  unfold get_current_user. rewrite Hck. cbn [token_truthy negb].
  destruct (verify_token_revoked key alg id (Signed alg key p) "access" _ Hno Hid)
    as [e [He H401]].
  exists e. split; [|exact H401].
  unfold bind.
  destruct (verify_token key alg (Signed alg key p) "access" _) as [[q|e'] w3];
    simpl in *; congruence.
Qed.

Lemma X4_logout_revokes_witness :
  let r := logout Sample.secret Sample.algorithm Sample.returning Sample.w1 in
  fst r = Ok clear_auth_cookies
  /\ no_session "u" (snd r)
  /\ exists e,
       fst (get_current_user Sample.secret Sample.algorithm Sample.returning (snd r))
       = Raise e
       /\ (store_up (snd r) -> exists d, e = HTTPException 401 d).
Proof.
  apply (X4_logout_revokes Sample.secret Sample.algorithm "u" Sample.returning
           Sample.access1 (token_claims Sample.access1) Sample.w1).
  - reflexivity.
  - vm_compute. reflexivity.
  - reflexivity.
  - discriminate.
  - unfold unique_invalidate_ids. vm_compute. repeat constructor. simpl. tauto.
  - reflexivity.
Defined.

(** X5. Logout fails only with the store.  Whatever the request holds,
    [logout] either returns having cleared both cookies, or raises the
    store's [PyMongoError] because the delete it attempted failed; no
    [HTTPException] and no token error ever leaves it. *)
Theorem X5_logout_fails_only_with_the_store
    (key alg : string) (request : Request) (w : World) :
  fst (logout key alg request w) = Ok clear_auth_cookies
  \/ (fst (logout key alg request w) = Raise PyMongoError
      /\ store_fault w (store_ops w) = true).
Proof.
  unfold logout, bind at 1.
  destruct (cookies_get (cookies request) "access_token") as [t|];
    [|left; reflexivity].
  destruct (token_truthy t); [|left; reflexivity].
  unfold try_except, bind.
  destruct (jwt_decode t key [alg] w) as [[p|e] w1] eqn:Hj.
  - apply jwt_decode_ok in Hj as [-> ->].
    destruct (truthy (dict_get p "invalidate_id")); [|left; reflexivity].
    unfold invalidate_session, delete_one, store_call.
    cbn [store_fault store_ops advance_clock].
    destruct (store_fault w (store_ops w)); [right|left]; auto.
  - apply jwt_decode_raises in Hj. rewrite Hj. left. reflexivity.
Qed.

(** X6. Logout with a token that does not decode.  When [jwt.decode] refuses
    the token of the access cookie (garbage, another key, not yet valid, or
    expired), [logout] still clears both cookies, but it makes no call to
    the store and every session record stays: an expired access token does
    not log its session out. *)
Theorem X6_logout_with_undecodable_token
    (key alg : string) (request : Request) (t : Token) (e : exn) (w : World) :
  cookies_get (cookies request) "access_token" = Some t ->
  fst (jwt_decode t key [alg] w) = Raise e ->
  let r := logout key alg request w in
  fst r = Ok clear_auth_cookies
  /\ sessions (snd r) = sessions w
  /\ store_ops (snd r) = store_ops w.
Proof.
  intros Hck Hd. cbv zeta.
  destruct (jwt_decode t key [alg] w) as [r1 w1] eqn:Hj. simpl in Hd. subst r1.
  pose proof (jwt_decode_raises _ _ _ _ _ _ Hj) as He.
  assert (Hw : sessions w1 = sessions w /\ store_ops w1 = store_ops w).
  { revert Hj. unfold jwt_decode, raise. destruct t as [a k c|raw].
    - destruct (negb (existsb (String.eqb a) [alg])); [intros [= _ <-]; auto|].
      destruct (negb (String.eqb k key)); [intros [= _ <-]; auto|].
      unfold bind, utcnow, lift, ret.
      repeat match goal with
             | |- context [match validate_time_claim ?p ?k ?b ?x with _ => _ end] =>
                 destruct (validate_time_claim p k b x)
             end; intros [= _ <-]; auto.
    - intros [= _ <-]; auto. }
  unfold logout, try_except, bind. rewrite Hck.
  destruct (token_truthy t); [|cbn; auto].
  rewrite Hj, He. cbn. split; [reflexivity|exact Hw].
Qed.

Lemma X6_logout_with_undecodable_token_witness :
  let r := logout Sample.secret Sample.algorithm Sample.returning
             Sample.w1_next_day in
  fst r = Ok clear_auth_cookies
  /\ sessions (snd r) = sessions Sample.w1_next_day
  /\ store_ops (snd r) = store_ops Sample.w1_next_day.
Proof.
  apply (X6_logout_with_undecodable_token Sample.secret Sample.algorithm
           Sample.returning Sample.access1 ExpiredSignatureError
           Sample.w1_next_day).
  - reflexivity.
  - vm_compute. reflexivity.
Defined.

(** ** The sweeper *)

Lemma sweeper_turn_run (w : World) :
  cleanup_expired_sessions_turn w =
    if store_fault w (store_ops w)
    then (Ok 60, count_store_op (advance_clock w))
    else (Ok 3600,
          set_sessions
            (filter (fun s => negb (sess_expires_at s <? reading w 0)) (sessions w))
            (count_store_op (advance_clock w))).
Proof.
  unfold reading. rewrite Nat.add_0_r.
  unfold cleanup_expired_sessions_turn, try_except, bind, utcnow, delete_many,
    store_call, ret.
  cbn [store_fault store_ops advance_clock].
  destruct (store_fault w (store_ops w)); reflexivity.
Qed.

(** X7. One turn of the sweeper never raises.  When the store answers it
    keeps exactly the sessions whose [expires_at] is not earlier than the
    clock reading of the turn (a session expiring at that very instant
    stays) and sleeps for an hour; when the store fails it leaves the
    sessions as they were and retries after a minute. *)
Theorem X7_sweeper_turn (w : World) :
  let r := cleanup_expired_sessions_turn w in
  if store_fault w (store_ops w)
  then fst r = Ok 60 /\ sessions (snd r) = sessions w
  else fst r = Ok 3600
       /\ forall s, In s (sessions (snd r))
                    <-> In s (sessions w) /\ reading w 0 <= sess_expires_at s.
Proof.
  cbv zeta. rewrite sweeper_turn_run.
  destruct (store_fault w (store_ops w)); cbn [fst snd]; [auto|].
  split; [reflexivity|].
  intros s. cbn [sessions set_sessions].
  now rewrite filter_In, negb_true_iff, Z.ltb_ge.
Qed.



(** ** What authentication does to the store *)

Lemma jwt_decode_keeps_store (t : Token) (key : string) (algs : list string)
    (w : World) :
  let w' := snd (jwt_decode t key algs w) in
  sessions w' = sessions w /\ store_ops w' = store_ops w
  /\ store_fault w' = store_fault w.
Proof.
  cbv zeta. unfold jwt_decode, raise. destruct t as [a k c|raw]; [|auto].
  destruct (negb (existsb (String.eqb a) algs)); [auto|].
  destruct (negb (String.eqb k key)); [auto|].
  unfold bind, utcnow, lift, ret.
  repeat match goal with
         | |- context [match validate_time_claim ?p ?k ?b ?x with _ => _ end] =>
             destruct (validate_time_claim p k b x)
         end; auto.
Qed.

Lemma forget_update_first (p : Session -> bool) (t : Z) (l : list Session) :
  map forget_last_used (update_first p (set_last_used t) l)
  = map forget_last_used l.
Proof.
  induction l as [|s l IH]; simpl; [reflexivity|].
  destruct (p s); simpl; [reflexivity|]. now rewrite IH.
Qed.

Section TouchOnly.

Variable before : list Session.

(** The sessions are those of [before], up to [last_used]. *)
Let untouched (w : World) : Prop :=
  map forget_last_used (sessions w) = before.

Lemma touch_only_utcnow : stable untouched utcnow.
Proof. intros w H. exact H. Qed.

Lemma touch_only_find_one (q : Value) : stable untouched (find_one q).
Proof. apply stable_store_call; auto. Qed.

Lemma touch_only_users_find_one (oid : option ObjectIdT) :
  stable untouched (users_find_one oid).
Proof. apply stable_store_call; auto. Qed.

Lemma touch_only_update_one (q : Value) (t : Z) :
  stable untouched (update_one q t).
Proof.
  apply stable_store_call; [auto|].
  intros w H. unfold untouched in *. simpl. now rewrite forget_update_first.
Qed.

Ltac touch_only_step :=
  first
    [ apply stable_ret | apply stable_raise | apply stable_lift
    | apply touch_only_utcnow | apply touch_only_find_one
    | apply touch_only_users_find_one | apply touch_only_update_one
    | apply stable_bind; [|intros ?]
    | match goal with
      | |- stable _ (if ?b then _ else _) => destruct b
      | |- stable _ (match ?x with _ => _ end) => destruct x
      end ].

Variables JWT_SECRET JWT_ALGORITHM : string.

Lemma touch_only_verify_token (t : Token) (kind : string) :
  stable untouched (verify_token JWT_SECRET JWT_ALGORITHM t kind).
Proof.
  unfold verify_token. apply stable_try_except.
  - unfold jwt_decode. repeat touch_only_step.
  - intros e h H; destruct e; simpl in H; try discriminate;
      injection H as <-; apply stable_raise.
Qed.

Lemma touch_only_get_current_user (request : Request) :
  stable untouched (get_current_user JWT_SECRET JWT_ALGORITHM request).
Proof.
  unfold get_current_user.
  repeat first [apply touch_only_verify_token | touch_only_step].
Qed.

Lemma touch_only_refresh_token (request : Request) :
  stable untouched (refresh_token JWT_SECRET JWT_ALGORITHM request).
Proof.
  unfold refresh_token.
  destruct (cookies_get (cookies request) "refresh_token") as [t|];
    [|apply stable_raise].
  destruct (negb (token_truthy t)); [apply stable_raise|].
  apply stable_try_except.
  - repeat first [apply touch_only_verify_token | touch_only_step].
  - intros e h [= <-]. apply stable_raise.
Qed.

End TouchOnly.

(** X9. Authentication never creates or deletes a session.  Whatever they
    are given and whether they return or raise, [verify_token],
    [get_current_user] and the refresh route leave the sessions collection as
    it was up to the [last_used] fields: refreshing an access token does not
    create a session, and a refused token does not cost its session. *)
Theorem X9_authentication_only_touches_last_used
    (key alg : string) (t : Token) (kind : string) (request : Request)
    (w : World) :
  map forget_last_used (sessions (snd (verify_token key alg t kind w)))
  = map forget_last_used (sessions w)
  /\ map forget_last_used (sessions (snd (get_current_user key alg request w)))
     = map forget_last_used (sessions w)
  /\ map forget_last_used (sessions (snd (refresh_token key alg request w)))
     = map forget_last_used (sessions w).
Proof.
  repeat split.
  - now apply (touch_only_verify_token (map forget_last_used (sessions w))).
  - now apply (touch_only_get_current_user (map forget_last_used (sessions w))).
  - now apply (touch_only_refresh_token (map forget_last_used (sessions w))).
Qed.

(** X10. A token refused for itself never reaches the store.  When
    [verify_token] answers 401 for any reason other than a missing session
    (the token is expired, malformed, wrongly signed or of the wrong kind), it
    has made no call to the store and the sessions are as they were. *)
Theorem X10_refused_token_makes_no_store_call
    (key alg : string) (t : Token) (kind d : string) (w : World) :
  fst (verify_token key alg t kind w) = Raise (HTTPException 401 d) ->
  d <> "Invalid session" ->
  sessions (snd (verify_token key alg t kind w)) = sessions w
  /\ store_ops (snd (verify_token key alg t kind w)) = store_ops w.
Proof.
  intros H Hd.
  pose proof (jwt_decode_keeps_store t key [alg] w) as Hk. cbv zeta in Hk.
  destruct (jwt_decode t key [alg] w) as [[p|e] w1] eqn:Hj; cbn [snd] in Hk.
  - rewrite (verify_token_decoded _ _ _ kind _ _ _ Hj) in *.
    destruct (negb (value_eqb (dict_get p "type") (VStr kind))); [tauto|].
    destruct (store_fault w1 (store_ops w1)); [discriminate|].
    destruct (find (matches (dict_get p "invalidate_id")) (sessions w1)).
    + cbv zeta in H. destruct (store_fault w1 (S (store_ops w1))); discriminate.
    + injection H as <-. contradiction.
  - rewrite (verify_token_decode_error _ _ _ kind _ _ _ Hj). tauto.
Qed.

Lemma X10_refused_token_makes_no_store_call_witness :
  sessions (snd (verify_token Sample.secret Sample.algorithm Sample.forged
                   "access" Sample.w1))
  = sessions Sample.w1
  /\ store_ops (snd (verify_token Sample.secret Sample.algorithm Sample.forged
                       "access" Sample.w1))
     = store_ops Sample.w1.
Proof.
  apply (X10_refused_token_makes_no_store_call Sample.secret Sample.algorithm
           Sample.forged "access" "Invalid token" Sample.w1).
  - vm_compute. reflexivity.
  - discriminate.
Defined.

(** X11. The refresh route reports every failure as 401.  It either sets the
    cookies or raises an [HTTPException] with status 401: "No refresh token"
    exactly when the refresh cookie is missing or empty, "Invalid refresh
    token" otherwise.  The 404 it raises for a vanished user and an exception
    of the store never reach the caller as such. *)
Theorem X11_refresh_reports_every_failure_as_401
    (key alg : string) (request : Request) (w : World) :
  let r := fst (refresh_token key alg request w) in
  match r with
  | Ok _ => True
  | Raise e => e = HTTPException 401 "No refresh token"
               \/ e = HTTPException 401 "Invalid refresh token"
  end
  /\ (r = Raise (HTTPException 401 "No refresh token") <->
      match cookies_get (cookies request) "refresh_token" with
      | None => True
      | Some t => token_truthy t = false
      end).
Proof.
  cbv zeta. unfold refresh_token.
  destruct (cookies_get (cookies request) "refresh_token") as [t|];
    [|cbn; tauto].
  destruct (token_truthy t); cbn [negb]; [|cbn; tauto].
  unfold try_except.
  match goal with
  | |- context [match ?m w with _ => _ end] => destruct (m w) as [[c|e] w1]
  end; cbn; repeat split; auto; try discriminate.
Qed.

Lemma find_update_first {A} (p : A -> bool) (f : A -> A) (l : list A) :
  (forall x, p (f x) = p x) ->
  find p (update_first p f l) = option_map f (find p l).
Proof.
  intros Hp. induction l as [|x l IH]; simpl; [reflexivity|].
  destruct (p x) eqn:Hx; simpl.
  - now rewrite Hp, Hx.
  - now rewrite Hx, IH.
Qed.

(** X12. An accepted token stamps its session.  When [verify_token] accepts
    a token, the session record that the lookup by the token's invalidation
    id finds has its [last_used] set to the clock reading taken after the
    decoding, every other field of it is kept, and the collection has as many
    records as before. *)
Theorem X12_accepted_token_stamps_its_session
    (key alg : string) (t : Token) (kind : string) (p : Dict) (w w' : World) :
  verify_token key alg t kind w = (Ok p, w') ->
  exists s,
    find (matches (dict_get p "invalidate_id")) (sessions w) = Some s
    /\ find (matches (dict_get p "invalidate_id")) (sessions w')
       = Some (set_last_used (reading w 1) s)
    /\ List.length (sessions w') = List.length (sessions w).
Proof.
  intros H.
  apply verify_token_ok in H as (_ & _ & [s Hs] & _ & _ & ->).
  exists s. split; [exact Hs|]. cbn [sessions set_sessions].
  unfold reading. rewrite Nat.add_succ_r, Nat.add_0_r. split.
  - rewrite find_update_first by reflexivity. now rewrite Hs.
  - rewrite <- (length_map forget_last_used), forget_update_first.
    apply length_map.
Qed.

Lemma X12_accepted_token_stamps_its_session_witness :
  exists s,
    find (matches (dict_get (token_claims Sample.access1) "invalidate_id"))
      (sessions Sample.w1) = Some s
    /\ find (matches (dict_get (token_claims Sample.access1) "invalidate_id"))
         (sessions (snd (verify_token Sample.secret Sample.algorithm
                           Sample.access1 "access" Sample.w1)))
       = Some (set_last_used (reading Sample.w1 1) s)
    /\ List.length
         (sessions (snd (verify_token Sample.secret Sample.algorithm
                           Sample.access1 "access" Sample.w1)))
       = List.length (sessions Sample.w1).
Proof.
  apply (X12_accepted_token_stamps_its_session Sample.secret Sample.algorithm
           Sample.access1 "access" (token_claims Sample.access1) Sample.w1).
  vm_compute. reflexivity.
Defined.

(** ** The unique index as an invariant *)

(** X13. Starting from an empty sessions collection, whatever sequence of
    session creations, authentications, refreshes, logouts, invalidations and
    sweeper turns runs, and whichever of them fail, no two session records
    ever share an invalidation id, provided [uuid4] never returns the same
    value twice. *)
Theorem X13_invalidation_ids_stay_unique
    (key alg : string) (ops : list Op) (w : World) :
  sessions w = [] ->
  (forall i j, uuid4 w i = uuid4 w j -> i = j) ->
  unique_invalidate_ids (run_ops key alg ops w).
Proof.
  intros Hs Hinj.
  apply (run_ops_well_formed key alg ops w).
  now apply well_formed_empty.
Qed.

Lemma sample_uuid_of_injective (i j : nat) :
  Sample.uuid_of i = Sample.uuid_of j -> i = j.
Proof.
  revert j. induction i as [|i IH]; intros [|j]; simpl; try discriminate; auto.
  intros [= H]. f_equal. now apply IH.
Qed.

Lemma X13_invalidation_ids_stay_unique_witness :
  unique_invalidate_ids
    (run_ops Sample.secret Sample.algorithm
       [ OpCreateSession "0123456789abcdef01234567" "a@x.com" Sample.browser;
         OpCreateSession "not an object id" "b@x.com" Sample.browser;
         OpCreateSession "0123456789abcdef01234567" "a@x.com" Sample.browser;
         OpRefresh Sample.returning; OpLogout Sample.returning; OpSweep ]
       Sample.w0).
Proof.
  apply (X13_invalidation_ids_stay_unique Sample.secret Sample.algorithm _
           Sample.w0).
  - reflexivity.
  - exact sample_uuid_of_injective.
Defined.

(** ** Username availability *)

Lemma letter_not_underscore (c : N) :
  is_ascii_letter c = true -> c <> underscore.
Proof.
  unfold is_ascii_letter, underscore. intros H ->. vm_compute in H. discriminate.
Qed.

Lemma letter_not_digit (c : N) :
  is_ascii_letter c = true -> is_ascii_digit c = false.
Proof.
  unfold is_ascii_letter, is_ascii_digit.
  rewrite orb_true_iff, !andb_true_iff, !N.leb_le, andb_false_iff, !N.leb_gt.
  lia.
Qed.

Lemma alphabet_is_ascii (c : N) :
  is_ascii_letter c = true \/ is_ascii_digit c = true \/ c = underscore ->
  (c <? 128)%N = true.
Proof.
  unfold is_ascii_letter, is_ascii_digit, underscore.
  rewrite orb_true_iff, !andb_true_iff, !N.leb_le, N.ltb_lt. lia.
Qed.

Lemma alphabet_check (c : N) :
  isalnum_ascii c || (c =? underscore)%N = true <->
  is_ascii_letter c = true \/ is_ascii_digit c = true \/ c = underscore.
Proof.
  unfold isalnum_ascii. rewrite !orb_true_iff, N.eqb_eq. tauto.
Qed.

(** After the alphabet check, the only-numbers check fails exactly when the
    name has a letter or is made of underscores only. *)
Lemma only_numbers_check (username : Text) :
  (forall c, In c username ->
     is_ascii_letter c = true \/ is_ascii_digit c = true \/ c = underscore) ->
  isdigit_ascii (remove_underscores username) = false <->
  (exists c, In c username /\ is_ascii_letter c = true)
  \/ forall c, In c username -> c = underscore.
Proof.
  intros Halpha.
  assert (Hkept : forall c, In c (remove_underscores username) <->
                            In c username /\ c <> underscore).
  { intros c. unfold remove_underscores.
    now rewrite filter_In, negb_true_iff, N.eqb_neq. }
  unfold isdigit_ascii.
  destruct (remove_underscores username) as [|d ds] eqn:Hr.
  - split; [intros _; right|reflexivity].
    intros c Hc. destruct (N.eq_dec c underscore) as [|Hne]; [assumption|].
    destruct (proj2 (Hkept c) (conj Hc Hne)).
  - split.
    + intros Hf. left.
      assert (Hex : exists c, In c (d :: ds) /\ is_ascii_digit c = false).
      { clear Hkept Hr. induction (d :: ds) as [|x l IH]; [discriminate|].
        simpl in Hf. destruct (is_ascii_digit x) eqn:Hx.
        - destruct (IH Hf) as [c [Hc Hd]]. exists c. split; [now right|exact Hd].
        - exists x. split; [now left|exact Hx]. }
      destruct Hex as [c [Hc Hd]]. apply Hkept in Hc as [Hc Hu].
      exists c. split; [exact Hc|].
      destruct (Halpha c Hc) as [Hl|[Hdg|He]];
        [exact Hl|congruence|contradiction].
    + intros [[c [Hc Hl]]|Hall].
      * apply not_true_is_false. intros Hf.
        rewrite forallb_forall in Hf.
        assert (Hin : In c (d :: ds)).
        { apply Hkept. split; [exact Hc|]. now apply letter_not_underscore. }
        specialize (Hf c Hin). rewrite (letter_not_digit c Hl) in Hf.
        discriminate.
      * exfalso.
        assert (Hin : In d (d :: ds)) by now left.
        apply Hkept in Hin as [Hd Hu]. apply Hu, Hall, Hd.
Qed.

(** The four checks of the route pass exactly on the valid usernames. *)
Lemma username_checks (username : Text) :
  valid_username username <->
  ((List.length username <? 3) || (30 <? List.length username))%nat = false
  /\ isascii username = true
  /\ forallb (fun c => isalnum_ascii c || (c =? underscore)%N) username = true
  /\ isdigit_ascii (remove_underscores username) = false.
Proof.
  unfold valid_username, isascii.
  rewrite orb_false_iff, !Nat.ltb_ge, !forallb_forall.
  split.
  - intros (Hlen & Halpha & Hlet). repeat split; try lia.
    + intros c Hc. now apply alphabet_is_ascii, Halpha.
    + intros c Hc. now apply alphabet_check, Halpha.
    + now apply only_numbers_check.
  - intros (Hlen & _ & Halpha & Hnum).
    assert (Ha : forall c, In c username ->
              is_ascii_letter c = true \/ is_ascii_digit c = true \/ c = underscore).
    { intros c Hc. now apply alphabet_check, Halpha. }
    repeat split; try lia; [exact Ha|]. now apply only_numbers_check.
Qed.

Lemma find_none_iff {A} (p : A -> bool) (l : list A) :
  find p l = None <-> forall x, In x l -> p x = false.
Proof.
  induction l as [|x l IH]; simpl; [split; [intros _ y []|reflexivity]|].
  destruct (p x) eqn:Hx.
  - split; [discriminate|]. intros H. specialize (H x (or_introl eq_refl)).
    congruence.
  - rewrite IH. split.
    + intros H y [<-|Hy]; auto.
    + intros H y Hy. apply H. now right.
Qed.

Lemma text_eqb_eq (a b : Text) : text_eqb a b = true <-> a = b.
Proof.
  unfold text_eqb. destruct (list_eq_dec N.eq_dec a b); split;
    congruence.
Qed.

Ltac refused_by_check Hv :=
  let Hok := fresh "Hok" in
  repeat split;
  [ intros _; eexists; reflexivity
  | intros Hok; apply Hv in Hok; intuition discriminate .. ].

(** X14. Username availability.  A name is refused with a reason, without
    any call to the store, exactly when it is not valid: shorter than 3 or
    longer than 30 characters, or with a character other than an ASCII
    letter, an ASCII digit or an underscore, or with digits and underscores
    but no letter (a name of underscores only is valid).  A valid name is
    looked up: the route raises the store's exception when the lookup fails,
    and otherwise answers available exactly when no user document carries
    this very username. *)
Theorem X14_username_availability
    (username_of : User -> option Text) (username : Text) (w : World) :
  let r := check_username_availability username_of username w in
  (~ valid_username username ->
   exists why, r = (Ok (mkAvailability false (Some why)), w))
  /\ (valid_username username -> store_fault w (store_ops w) = true ->
      fst r = Raise PyMongoError)
  /\ (valid_username username -> store_up w ->
      exists a,
        fst r = Ok (mkAvailability a None)
        /\ (a = true <->
            forall u, In u (users w) -> username_of u <> Some username)).
Proof.
  cbv zeta. unfold check_username_availability.
  pose proof (username_checks username) as Hv.
  destruct ((List.length username <? 3) || (30 <? List.length username))%nat.
  { refused_by_check Hv. }
  destruct (isascii username); cbn [negb].
  2:{ refused_by_check Hv. }
  destruct (forallb (fun c => isalnum_ascii c || (c =? underscore)%N) username);
    cbn [negb].
  2:{ refused_by_check Hv. }
  destruct (isdigit_ascii (remove_underscores username)).
  { refused_by_check Hv. }
  assert (Hvalid : valid_username username) by (apply Hv; auto).
  unfold bind, users_find_one_by_username, store_call, ret.
  repeat split.
  - intros Hn. contradiction.
  - intros _ Hf. now rewrite Hf.
  - intros _ Hup. unfold store_up in Hup. rewrite Hup. cbn [fst snd users count_store_op].
    eexists. split; [reflexivity|].
    destruct (find _ (users w)) as [u|] eqn:Hfind.
    + split; [discriminate|]. intros Hall. exfalso.
      apply find_some in Hfind as [Hin Hu].
      destruct (username_of u) as [n|] eqn:Hn; [|discriminate].
      apply text_eqb_eq in Hu. subst n. exact (Hall u Hin Hn).
    + split; [|reflexivity]. intros _ u Hin Hn.
      rewrite find_none_iff in Hfind. specialize (Hfind u Hin).
      rewrite Hn in Hfind.
      assert (text_eqb username username = true) by now apply text_eqb_eq.
      congruence.
Qed.

(** The route on five names: too short, not ASCII, a bad character, digits
    and underscores only, underscores only, and a name that is taken. *)
Example X14_sample_runs :
  let check s :=
    fst (check_username_availability Scenario.username_of (text_of_string s)
           Sample.w1) in
  check "ab"
  = Ok (mkAvailability false (Some "Username must be between 3 and 30 characters"))
  /\ fst (check_username_availability Scenario.username_of [233; 233; 233]%N
            Sample.w1)
     = Ok (mkAvailability false (Some "Username can only contain ASCII characters"))
  /\ check "a-b"
     = Ok (mkAvailability false
             (Some "Username can only contain letters, numbers and underscores"))
  /\ check "1_2"
     = Ok (mkAvailability false (Some "Username cannot be made up of only numbers"))
  /\ check "___" = Ok (mkAvailability true None)
  /\ check "alice" = Ok (mkAvailability false None)
  /\ check "bob_1" = Ok (mkAvailability true None).
Proof. cbv zeta. repeat split; vm_compute; reflexivity. Qed.
